(** * MilvusHandler: a shallow embedding of [milvus_handler.py]

    The handler is a thin client of two capability providers, the
    sentence-embedding model and the Milvus vector store (through pymilvus).
    Both are taken as interfaces (type classes below); the handler's methods
    are written in a state-and-exception monad over a [World] made of the
    handler object, the state of the store, the wall clock and the trace of
    every call that leaves the handler (logger, embedder, store, clock). *)

From Stdlib Require Import ZArith String Ascii List Lia DecimalString Sorted.
From Stdlib Require DecimalPos DecimalZ.
From stdpp Require Import base option list strings gmap.
Import ListNotations.
Local Open Scope Z_scope.
Local Open Scope string_scope.

(** ** Python built-ins used by the handler *)

Module Py.

(** [str.isspace] on one character.  Characters are code points below 256;
    the white-space ones are TAB..CR, FS..US, SPACE, NEL and NBSP. *)
Definition isspace (c : ascii) : bool :=
  let n := N_of_ascii c in
  ((9 <=? n) && (n <=? 13) || (28 <=? n) && (n <=? 32)
   || (n =? 133) || (n =? 160))%N.

Fixpoint lstrip (s : string) : string :=
  match s with
  | EmptyString => EmptyString
  | String c s' => if isspace c then lstrip s' else s
  end.

Fixpoint rstrip (s : string) : string :=
  match s with
  | EmptyString => EmptyString
  | String c s' =>
      match rstrip s' with
      | EmptyString => if isspace c then EmptyString else String c EmptyString
      | r => String c r
      end
  end.

(** [s.strip()] *)
Definition strip (s : string) : string := lstrip (rstrip s).

(** [str(i)] for an [int] *)
Definition str (i : Z) : string := NilZero.string_of_int (Z.to_int i).

(** [range(start, stop)] as the list it iterates over *)
Definition range (start stop : Z) : list Z :=
  map (fun i => start + Z.of_nat i) (seq 0 (Z.to_nat (stop - start))).

(** [len(l)] *)
Definition len {A} (l : list A) : Z := Z.of_nat (length l).

(** Values of a loaded YAML document that a field entry may hold. *)
Inductive yaml : Type :=
| YNull
| YInt (z : Z)
| YStr (s : string).

(** [v == s] for a string literal [s], as a [case "..."] pattern tests it *)
Definition eq_str (v : yaml) (s : string) : bool :=
  match v with
  | YStr s' => String.eqb s' s
  | _ => false
  end.

(** The exceptions the handler meets.  All of them derive from
    [Exception], so that [except Exception] catches each one. *)
Inductive exn : Type :=
| KeyError (key : yaml)
| UnboundLocalError (var : string)
| Exception (msg : string)
| MilvusException (msg : string).

(** The outcome of evaluating an expression or a call. *)
Inductive result (A : Type) : Type :=
| Ok (a : A)
| Raise (e : exn).
Arguments Ok {A} a.
Arguments Raise {A} e.

(** [d[k]] on a [dict] with string keys. *)
Definition getitem (d : gmap string yaml) (k : string) : result yaml :=
  match d !! k with
  | Some v => Ok v
  | None => Raise (KeyError (YStr k))
  end.

End Py.
Export Py.

(** ** What pymilvus builds: field and collection schemas, request
    parameters.  An object is the record of the arguments its constructor
    was called with. *)

Record FieldSchema {DataType : Type} : Type := mkFieldSchema {
  fs_name : yaml;
  fs_dtype : DataType;
  fs_max_length : option yaml;
  fs_dim : option Z;
  fs_is_primary : bool;
  fs_auto_id : bool }.
Arguments FieldSchema : clear implicits.

Record CollectionSchema {DataType : Type} : Type := mkCollectionSchema {
  cs_fields : list (FieldSchema DataType);
  cs_description : string }.
Arguments CollectionSchema : clear implicits.

(** [{"index_type": .., "metric_type": .., "params": {"nlist": ..}}] *)
Record IndexParams : Type := mkIndexParams {
  index_type : string;
  index_metric_type : string;
  nlist : Z }.

(** [{"metric_type": .., "params": {"nprobe": ..}}] *)
Record SearchParams : Type := mkSearchParams {
  metric_type : string;
  nprobe : Z }.

(** The three parallel columns handed to [Collection.insert]. *)
Record Entities {Vec : Type} : Type := mkEntities {
  pk_column : list string;
  text_column : list string;
  embeddings_column : list Vec }.
Arguments Entities : clear implicits.

(** ** The capability providers *)

(** The sentence-embedding model, [SentenceTransformer]. *)
Class Embedder : Type := {
  Vec : Type;
  model_encode : string -> Vec;
  model_get_sentence_embedding_dimension : Z }.

(** The vector store as pymilvus exposes it.  [Store] is the state of the
    service; a call takes it to a new state and either returns or raises.
    [utility.has_collection] is a query: it reads the state only. *)
Class Pymilvus (Vec : Type) : Type := {
  DataType : Type;
  Store : Type;
  Collection : Type;
  MutationResult : Type;
  Hit : Type;
  Dist : Type;
  (* DataType[name] *)
  DataType_getitem : string -> option DataType;
  (* the checks FieldSchema(...) and CollectionSchema(...) run on their arguments *)
  FieldSchema_check : FieldSchema DataType -> result unit;
  CollectionSchema_check : CollectionSchema DataType -> result unit;
  connections_connect : Store -> string -> string -> string -> Store * result unit;
  utility_has_collection : Store -> string -> result bool;
  utility_drop_collection : Store -> string -> Store * result unit;
  (* Collection(name) and Collection(name, schema, consistency_level=..) *)
  Collection_init :
    Store -> string -> option (CollectionSchema DataType) -> option string ->
    Store * result Collection;
  Collection_create_index :
    Store -> Collection -> string -> IndexParams -> Store * result unit;
  Collection_insert :
    Store -> Collection -> Entities Vec -> Store * result MutationResult;
  Collection_flush : Store -> Collection -> Store * result unit;
  Collection_search :
    Store -> Collection -> list Vec -> string -> SearchParams -> Z ->
    list string -> Store * result (list (list Hit));
  (* str(hit), str(hit.entity.get(field)), hit.distance and its order *)
  Hit_str : Hit -> string;
  Hit_entity_get : Hit -> string -> string;
  Hit_distance : Hit -> Dist;
  Dist_le : Dist -> Dist -> Prop }.

(** The interpreter's part: the wall clock and the text of formatted values. *)
Class Runtime : Type := {
  Clock : Type;
  Timestamp : Type;
  time_time : Clock -> Clock * Timestamp;
  (* str(t1 - t0) *)
  str_elapsed : Timestamp -> Timestamp -> string;
  (* str(e) *)
  str_exn : exn -> string }.

(** The configuration, as [load_config] returns it: the keys the handler
    reads.  A field entry is a [dict]; which keys it has is not checked
    when the file is loaded. *)
Record Config : Type := mkConfig {
  milvus_host : string;
  milvus_port : string;
  milvus_alias : string;
  milvus_description : string;
  milvus_collection_name : string;
  milvus_fields : list (gmap string yaml);
  model_name : string }.

Section Handler.
Context {E : Embedder} {P : Pymilvus Vec} {R : Runtime}.

(** ** The handler object *)

Record MilvusHandler : Type := mkHandler {
  config : Config;
  host : string;
  port : string;
  alias : string;
  description : string;
  collection_name : string;
  collection_exists : bool;
  schema : option (CollectionSchema DataType);
  milvus_collection : option Collection }.

(** [__init__] (the model and the logger are the ambient providers) *)
Definition init (config : Config) : MilvusHandler :=
  {| config := config;
     host := milvus_host config;
     port := milvus_port config;
     alias := milvus_alias config;
     description := milvus_description config;
     collection_name := milvus_collection_name config;
     collection_exists := false;
     schema := None;
     milvus_collection := None |}.

Definition set_collection_exists (b : bool) (h : MilvusHandler) :=
  {| config := config h; host := host h; port := port h; alias := alias h;
     description := description h; collection_name := collection_name h;
     collection_exists := b;
     schema := schema h; milvus_collection := milvus_collection h |}.

Definition set_schema (s : CollectionSchema DataType) (h : MilvusHandler) :=
  {| config := config h; host := host h; port := port h; alias := alias h;
     description := description h; collection_name := collection_name h;
     collection_exists := collection_exists h;
     schema := Some s; milvus_collection := milvus_collection h |}.

Definition set_milvus_collection (c : Collection) (h : MilvusHandler) :=
  {| config := config h; host := host h; port := port h; alias := alias h;
     description := description h; collection_name := collection_name h;
     collection_exists := collection_exists h;
     schema := schema h; milvus_collection := Some c |}.

(** ** Calls that leave the handler *)

Inductive Level : Type := INFO | ERROR.

Inductive Event : Type :=
| EvLog (lvl : Level) (msg : string)
| EvEncode (text : string)
| EvGetDimension
| EvFieldSchema (f : FieldSchema DataType)
| EvCollectionSchema (s : CollectionSchema DataType)
| EvConnect (alias host port : string)
| EvHasCollection (name : string)
| EvDropCollection (name : string)
| EvCollection (name : string) (schema : option (CollectionSchema DataType))
               (consistency_level : option string)
| EvCreateIndex (c : Collection) (field_name : string) (index : IndexParams)
| EvInsert (c : Collection) (entities : Entities Vec)
| EvFlush (c : Collection)
| EvSearch (c : Collection) (data : list Vec) (anns_field : string)
           (param : SearchParams) (limit : Z) (output_fields : list string)
| EvTime.

Record World : Type := mkWorld {
  handler : MilvusHandler;
  store : Store;
  clock : Clock;
  trace : list Event }.

(** ** The monad of method bodies: state, and exceptions that keep the
    state reached when they were raised *)

Definition M (A : Type) : Type := World -> World * result A.

Definition ret {A} (a : A) : M A := fun w => (w, Ok a).

Definition bind {A B} (m : M A) (k : A -> M B) : M B :=
  fun w => match m w with
           | (w', Ok a) => k a w'
           | (w', Raise e) => (w', Raise e)
           end.

Definition raise {A} (e : exn) : M A := fun w => (w, Raise e).

(** [try: body / except Exception as e: on_exn e / else: on_ok] *)
Definition try_except_else {A B} (body : M A) (on_exn : exn -> M B)
    (on_ok : A -> M B) : M B :=
  fun w => match body w with
           | (w', Ok a) => on_ok a w'
           | (w', Raise e) => on_exn e w'
           end.

(** the value of an expression that may raise *)
Definition eval {A} (r : result A) : M A := fun w => (w, r).

Definition emit (ev : Event) : M unit :=
  fun w => (mkWorld (handler w) (store w) (clock w) (trace w ++ [ev]), Ok tt).

Definition self : M MilvusHandler := fun w => (w, Ok (handler w)).

Definition assign (f : MilvusHandler -> MilvusHandler) : M unit :=
  fun w => (mkWorld (f (handler w)) (store w) (clock w) (trace w), Ok tt).

(** a call that changes the store *)
Definition store_call {A} (f : Store -> Store * result A) : M A :=
  fun w => let (s', r) := f (store w) in
           (mkWorld (handler w) s' (clock w) (trace w), r).

(** a call that only reads it *)
Definition store_query {A} (f : Store -> result A) : M A :=
  fun w => (w, f (store w)).

Definition clock_call : M Timestamp :=
  fun w => let (c', t) := time_time (clock w) in
           (mkWorld (handler w) (store w) c' (trace w), Ok t).
End Handler.

Declare Scope py_scope.
Delimit Scope py_scope with py.
Notation "x <- m ;; k" := (bind m (fun x => k))
  (at level 100, m at next level, right associativity) : py_scope.
Notation "m ;; k" := (bind m (fun _ => k))
  (at level 100, right associativity) : py_scope.

Section Methods.
Context {E : Embedder} {P : Pymilvus Vec} {R : Runtime}.
Local Open Scope py_scope.

(** ** The providers' operations, each recorded in the trace *)

Definition logger_info (msg : string) : M unit := emit (EvLog INFO msg).
Definition logger_error (msg : string) : M unit := emit (EvLog ERROR msg).

Definition encode_ (text : string) : M Vec :=
  emit (EvEncode text) ;; ret (model_encode text).

Definition get_sentence_embedding_dimension_ : M Z :=
  emit EvGetDimension ;; ret model_get_sentence_embedding_dimension.

Definition time_ : M Timestamp := emit EvTime ;; clock_call.

Definition DataType_ (name : yaml) : M DataType :=
  match name with
  | YStr s => match DataType_getitem s with
              | Some d => ret d
              | None => raise (KeyError name)
              end
  | _ => raise (KeyError name)
  end.

Definition FieldSchema_ (f : FieldSchema DataType) : M (FieldSchema DataType) :=
  emit (EvFieldSchema f) ;; eval (FieldSchema_check f) ;; ret f.

Definition CollectionSchema_ (fields : list (FieldSchema DataType))
    (description : string) : M (CollectionSchema DataType) :=
  let s := mkCollectionSchema DataType fields description in
  emit (EvCollectionSchema s) ;; eval (CollectionSchema_check s) ;; ret s.

Definition connections_connect_ (alias host port : string) : M unit :=
  emit (EvConnect alias host port) ;;
  store_call (fun s => connections_connect s alias host port).

Definition has_collection_ (name : string) : M bool :=
  emit (EvHasCollection name) ;;
  store_query (fun s => utility_has_collection s name).

Definition drop_collection_ (name : string) : M unit :=
  emit (EvDropCollection name) ;;
  store_call (fun s => utility_drop_collection s name).

Definition Collection_ (name : string)
    (schema : option (CollectionSchema DataType))
    (consistency_level : option string) : M Collection :=
  emit (EvCollection name schema consistency_level) ;;
  store_call (fun s => Collection_init s name schema consistency_level).

Definition create_index_ (c : Collection) (field_name : string)
    (index : IndexParams) : M unit :=
  emit (EvCreateIndex c field_name index) ;;
  store_call (fun s => Collection_create_index s c field_name index).

Definition insert_ (c : Collection) (entities : Entities Vec) : M MutationResult :=
  emit (EvInsert c entities) ;;
  store_call (fun s => Collection_insert s c entities).

Definition flush_ (c : Collection) : M unit :=
  emit (EvFlush c) ;; store_call (fun s => Collection_flush s c).

Definition search_ (c : Collection) (data : list Vec) (anns_field : string)
    (param : SearchParams) (limit : Z) (output_fields : list string)
    : M (list (list Hit)) :=
  emit (EvSearch c data anns_field param limit output_fields) ;;
  store_call (fun s => Collection_search s c data anns_field param limit output_fields).

(** [[f(x) for x in l]] *)
Fixpoint comprehension {A B} (f : A -> M B) (l : list A) : M (list B) :=
  match l with
  | [] => ret []
  | x :: l' => y <- f x ;; ys <- comprehension f l' ;; ret (y :: ys)
  end.

(** [for x in l: body(x)] *)
Fixpoint for_ {A} (l : list A) (body : A -> M unit) : M unit :=
  match l with
  | [] => ret tt
  | x :: l' => body x ;; for_ l' body
  end.

(** ** The methods of [MilvusHandler] *)

Definition check_collection_existence : M unit :=
  h <- self ;;
  b <- has_collection_ (collection_name h) ;;
  assign (set_collection_exists b).

(** One iteration of the loop of [define_schema]: the descriptor appended
    for [field]. *)
Definition field_schema (field : gmap string yaml) : M (FieldSchema DataType) :=
  name <- eval (getitem field "name") ;;
  if eq_str name "pk" then
    n <- eval (getitem field "name") ;;
    d <- eval (getitem field "dtype") ;;
    dt <- DataType_ d ;;
    ml <- eval (getitem field "max_length") ;;
    FieldSchema_ {| fs_name := n; fs_dtype := dt; fs_max_length := Some ml;
                    fs_dim := None; fs_is_primary := true; fs_auto_id := false |}
  else if eq_str name "embeddings" then
    n <- eval (getitem field "name") ;;
    d <- eval (getitem field "dtype") ;;
    dt <- DataType_ d ;;
    dim <- get_sentence_embedding_dimension_ ;;
    FieldSchema_ {| fs_name := n; fs_dtype := dt; fs_max_length := None;
                    fs_dim := Some dim; fs_is_primary := false; fs_auto_id := false |}
  else
    n <- eval (getitem field "name") ;;
    d <- eval (getitem field "dtype") ;;
    dt <- DataType_ d ;;
    ml <- eval (getitem field "max_length") ;;
    FieldSchema_ {| fs_name := n; fs_dtype := dt; fs_max_length := Some ml;
                    fs_dim := None; fs_is_primary := false; fs_auto_id := false |}.

(** The loop, with [fields] the list built so far. *)
Fixpoint define_fields (config_fields : list (gmap string yaml))
    (fields : list (FieldSchema DataType)) : M (list (FieldSchema DataType)) :=
  match config_fields with
  | [] => ret fields
  | field :: rest =>
      f <- field_schema field ;;
      define_fields rest (fields ++ [f])
  end.

Definition define_schema : M unit :=
  h <- self ;;
  fields <- define_fields (milvus_fields (config h)) [] ;;
  s <- CollectionSchema_ fields (description h) ;;
  assign (set_schema s).

Definition connect_to_collection : M unit :=
  h <- self ;;
  milvus_collection <-
    (if collection_exists h then
       logger_info ("Collection: " ++ collection_name h ++ " already exists.") ;;
       Collection_ (collection_name h) None None
     else
       milvus_collection <-
         Collection_ (collection_name h) (schema h) (Some "Strong") ;;
       logger_info "Start Creating index IVF_FLAT" ;;
       let index := {| index_type := "IVF_FLAT"; index_metric_type := "L2";
                       nlist := 128 |} in
       create_index_ milvus_collection "embeddings" index ;;
       ret milvus_collection) ;;
  assign (set_milvus_collection milvus_collection).

Definition insert_data (raw_data : list string) (starting_idx : Z)
    : M MutationResult :=
  s_embeddings <-
    comprehension (fun sentence => encode_ (strip sentence)) raw_data ;;
  let entities :=
    {| pk_column := map str (range starting_idx (starting_idx + len raw_data));
       text_column := map strip raw_data;
       embeddings_column := s_embeddings |} in
  h <- self ;;
  match milvus_collection h with
  | None =>
      logger_error "Collection is empty." ;;
      raise (Exception "Collection is empty.")
  | Some c =>
      insert_result <- insert_ c entities ;;
      flush_ c ;;
      ret insert_result
  end.

Definition connect : M unit :=
  h <- self ;;
  try_except_else
    (connections_connect_ (alias h) (host h) (port h))
    (fun e => logger_error
       ("Something went wrong while trying to connect to Milvus: " ++ str_exn e))
    (fun _ => logger_info "Successfully connected to Milvus.").

(** The two nested loops of [search]; the result is the value [hits] is
    bound to when they end, if it is bound at all. *)
Fixpoint log_hits (result : list (list Hit)) (hits : option (list Hit))
    : M (option (list Hit)) :=
  match result with
  | [] => ret hits
  | hits' :: rest =>
      for_ hits' (fun hit =>
        logger_info ("hit: " ++ Hit_str hit ++ ", id: " ++ Hit_entity_get hit "pk")) ;;
      log_hits rest (Some hits')
  end.

Definition search (text : string) (limit : Z) (output_fields : list string)
    : M (list Hit) :=
  text_embedding <- encode_ text ;;
  let search_params := {| metric_type := "L2"; nprobe := 10 |} in
  start_time <- time_ ;;
  h <- self ;;
  match milvus_collection h with
  | None =>
      logger_error "Collection is empty." ;;
      raise (Exception "Collection is empty.")
  | Some c =>
      result <- search_ c [text_embedding] "embeddings" search_params limit
                        output_fields ;;
      end_time <- time_ ;;
      hits <- log_hits result None ;;
      logger_info ("Search latency: " ++ str_elapsed start_time end_time) ;;
      match hits with
      | Some hits => ret hits
      | None => raise (UnboundLocalError "hits")
      end
  end.

Definition drop_db : M unit :=
  h <- self ;;
  try_except_else
    (drop_collection_ (collection_name h))
    (fun e => logger_error
       ("Something went wrong while trying to drop the collection: " ++ str_exn e))
    (fun _ => logger_info
       ("Collection " ++ collection_name h ++ " successfully dropped.")).

(** The start of the entry sequence of [__main__]: connect, check,
    define, attach. *)
Definition setup : M unit :=
  logger_info "Connecting to milvus..." ;;
  connect ;;
  logger_info "Checking whether the collection already exists..." ;;
  check_collection_existence ;;
  logger_info "Defining collection schema..." ;;
  define_schema ;;
  h <- self ;;
  logger_info ("Connecting to collection: " ++ collection_name h) ;;
  connect_to_collection.
End Methods.

(** ** A small instance of the providers, to run the handler on *)

Module Demo.

(** an embedder of dimension [dim]: every coordinate is the text's length *)
Definition embedder (dim : Z) : Embedder :=
  {| Vec := list Z;
     model_encode := fun s => repeat (Z.of_nat (String.length s)) (Z.to_nat dim);
     model_get_sentence_embedding_dimension := dim |}.

(** the members of pymilvus's [DataType], by name *)
Inductive dtype : Type :=
| NONE | BOOL | INT8 | INT16 | INT32 | INT64 | FLOAT | DOUBLE | STRING
| VARCHAR | ARRAY | JSON | BINARY_VECTOR | FLOAT_VECTOR | FLOAT16_VECTOR
| BFLOAT16_VECTOR | SPARSE_FLOAT_VECTOR | UNKNOWN.

Definition dtype_names : list (string * dtype) :=
  [("NONE", NONE); ("BOOL", BOOL); ("INT8", INT8); ("INT16", INT16);
   ("INT32", INT32); ("INT64", INT64); ("FLOAT", FLOAT); ("DOUBLE", DOUBLE);
   ("STRING", STRING); ("VARCHAR", VARCHAR); ("ARRAY", ARRAY); ("JSON", JSON);
   ("BINARY_VECTOR", BINARY_VECTOR); ("FLOAT_VECTOR", FLOAT_VECTOR);
   ("FLOAT16_VECTOR", FLOAT16_VECTOR); ("BFLOAT16_VECTOR", BFLOAT16_VECTOR);
   ("SPARSE_FLOAT_VECTOR", SPARSE_FLOAT_VECTOR); ("UNKNOWN", UNKNOWN)].

Definition dtype_getitem (name : string) : option dtype :=
  match find (fun nd => String.eqb (fst nd) name) dtype_names with
  | Some nd => Some (snd nd)
  | None => None
  end.

(** a stored row and a collection of them, by name *)
Definition row : Type := string * string * list Z.
Definition state : Type := list (string * list row).

Definition has (s : state) (name : string) : bool :=
  existsb (fun c => String.eqb (fst c) name) s.

Definition rows_of (s : state) (name : string) : list row :=
  match find (fun c => String.eqb (fst c) name) s with
  | Some c => snd c
  | None => []
  end.

Definition drop (s : state) (name : string) : state :=
  filter (fun c => negb (String.eqb (fst c) name)) s.

Fixpoint zip3 (a b : list string) (c : list (list Z)) : list row :=
  match a, b, c with
  | x :: a', y :: b', z :: c' => (x, y, z) :: zip3 a' b' c'
  | _, _, _ => []
  end.

Fixpoint l2 (u v : list Z) : Z :=
  match u, v with
  | x :: u', y :: v' => (x - y) * (x - y) + l2 u' v'
  | _, _ => 0
  end.

(** a hit: primary key and distance; kept sorted by distance *)
Fixpoint rank (h : string * Z) (l : list (string * Z)) : list (string * Z) :=
  match l with
  | [] => [h]
  | h' :: l' => if (snd h <=? snd h')%Z then h :: l else h' :: rank h l'
  end.

Definition nearest (q : list Z) (rows : list row) (limit : Z) : list (string * Z) :=
  firstn (Z.to_nat limit)
    (fold_right rank [] (map (fun r => (fst (fst r), l2 q (snd r))) rows)).

Definition not_found {A} (s : state) : state * result A :=
  (s, Raise (MilvusException "collection not found")).

(** A small store.  It answers a search with one group per query vector;
    a schema needs a primary-key field; dropping a collection it does not
    have is no error; an insert needs at least one row. *)
Definition pymilvus (dim : Z) : Pymilvus (@Vec (embedder dim)) :=
  {| DataType := dtype;
     Store := state;
     Collection := string;
     MutationResult := Z;
     Hit := string * Z;
     Dist := Z;
     DataType_getitem := dtype_getitem;
     FieldSchema_check := fun _ => Ok tt;
     CollectionSchema_check := fun schema =>
       if existsb fs_is_primary (cs_fields schema) then Ok tt
       else Raise (MilvusException "Schema must have a primary key field.");
     connections_connect := fun s _ _ _ => (s, Ok tt);
     utility_has_collection := fun s name => Ok (has s name);
     utility_drop_collection := fun s name => (drop s name, Ok tt);
     Collection_init := fun s name schema _ =>
       if has s name then (s, Ok name)
       else match schema with
            | Some _ => ((name, []) :: s, Ok name)
            | None => not_found s
            end;
     Collection_create_index := fun s c _ _ =>
       if has s c then (s, Ok tt) else not_found s;
     Collection_insert := fun s c e =>
       if has s c then
         match pk_column e with
         | [] => (s, Raise (MilvusException "The data fields are empty."))
         | _ =>
             ((c, (rows_of s c ++
                   zip3 (pk_column e) (text_column e) (embeddings_column e))%list)
                :: drop s c,
              Ok (len (pk_column e)))
         end
       else not_found s;
     Collection_flush := fun s c => if has s c then (s, Ok tt) else not_found s;
     Collection_search := fun s c data _ _ limit _ =>
       if has s c then
         if (limit <=? 0)%Z then (s, Raise (MilvusException "invalid limit"))
         else (s, Ok (map (fun q => nearest q (rows_of s c) limit) data))
       else not_found s;
     Hit_str := fun h => "(" ++ fst h ++ ", " ++ str (snd h) ++ ")";
     Hit_entity_get := fun h field =>
       if String.eqb field "pk" then fst h else "None";
     Hit_distance := snd;
     Dist_le := Z.le |}.

Definition runtime : Runtime :=
  {| Clock := Z;
     Timestamp := Z;
     time_time := fun c => (c + 1, c);
     str_elapsed := fun t0 t1 => str (t1 - t0);
     str_exn := fun e =>
       match e with
       | KeyError (YStr k) => "'" ++ k ++ "'"
       | KeyError (YInt z) => str z
       | KeyError YNull => "None"
       | UnboundLocalError v => v
       | Exception m => m
       | MilvusException m => m
       end |}.

(** the configuration of the demonstration: pk, sentence, embeddings *)
Definition field (name dtype : string) (max_length : yaml) : gmap string yaml :=
  <["name" := YStr name]> (<["dtype" := YStr dtype]> (<["max_length" := max_length]> ∅)).

Definition config (fields : list (gmap string yaml)) : Config :=
  {| milvus_host := "localhost";
     milvus_port := "19530";
     milvus_alias := "default";
     milvus_description := "demo";
     milvus_collection_name := "sentences";
     milvus_fields := fields;
     model_name := "all-MiniLM-L6-v2" |}.

Definition fields3 : list (gmap string yaml) :=
  [ field "pk" "VARCHAR" (YInt 36);
    field "sentence" "VARCHAR" (YInt 500);
    field "embeddings" "FLOAT_VECTOR" YNull ].

End Demo.

Section DemoRuns.
Import Demo.
#[local] Existing Instance runtime.
#[local] Instance demo_embedder : Embedder := embedder 2.
#[local] Instance demo_pymilvus : Pymilvus Vec := pymilvus 2.
Local Open Scope py_scope.

Definition w0 : World := mkWorld (init (config fields3)) [] 0 [].

(** the handler attached to a new, empty collection *)
Definition w_attached : World := fst (setup w0).

(** the same after the first two rows *)
Definition w_seeded : World := fst (insert_data ["a"; " bb "] 0 w_attached).

(** the schema defined, nothing attached, no collection in the store *)
Definition w_defined : World := fst (define_schema w0).

(** a store that already has the collection: before the check, and with
    the flag set *)
Definition w_stored : World :=
  mkWorld (init (config fields3)) [("sentences", [])] 0 [].

Definition w_checked : World :=
  mkWorld (set_collection_exists true (init (config fields3)))
          [("sentences", [])] 0 [].

(** a configuration with neither a "pk" nor an "embeddings" entry *)
Definition w_no_pk : World :=
  mkWorld (init (config [field "sentence" "VARCHAR" (YInt 500)])) [] 0 [].

(** a configuration with a "pk" entry and no "embeddings" entry *)
Definition w_no_embeddings : World :=
  mkWorld (init (config [field "pk" "VARCHAR" (YInt 36);
                         field "sentence" "VARCHAR" (YInt 500)])) [] 0 [].
End DemoRuns.

Section DemoRuns384.
Import Demo.
#[local] Existing Instance runtime.
#[local] Instance embedder384 : Embedder := embedder 384.
#[local] Instance pymilvus384 : Pymilvus Vec := pymilvus 384.

(** Scenario A: pk, sentence, embeddings with an embedder of dimension 384 *)
Definition w384 : World := mkWorld (init (config fields3)) [] 0 [].
End DemoRuns384.

Section DemoRunsMore.
Import Demo.
#[local] Existing Instance runtime.
#[local] Existing Instance demo_embedder.
#[local] Existing Instance demo_pymilvus.

(** an entry with a name and nothing else *)
Definition entry_without_dtype : gmap string yaml := <["name" := YStr "sentence"]> ∅.

(** a configuration whose second entry has no "dtype" *)
Definition w_bad_entry : World :=
  mkWorld (init (config [field "pk" "VARCHAR" (YInt 36); entry_without_dtype;
                         field "embeddings" "FLOAT_VECTOR" YNull])) [] 0 [].
End DemoRunsMore.

Section DemoRunsNoIndex.
Import Demo.
#[local] Existing Instance runtime.
#[local] Existing Instance demo_embedder.

(** the same store, except that it refuses every index request *)
#[local] Instance pymilvus_no_index : Pymilvus Vec :=
  {| DataType := dtype;
     Store := state;
     Collection := string;
     MutationResult := Z;
     Hit := string * Z;
     Dist := Z;
     DataType_getitem := dtype_getitem;
     FieldSchema_check := @FieldSchema_check _ demo_pymilvus;
     CollectionSchema_check := @CollectionSchema_check _ demo_pymilvus;
     connections_connect := @connections_connect _ demo_pymilvus;
     utility_has_collection := @utility_has_collection _ demo_pymilvus;
     utility_drop_collection := @utility_drop_collection _ demo_pymilvus;
     Collection_init := @Collection_init _ demo_pymilvus;
     Collection_create_index := fun s _ _ _ =>
       (s, Raise (MilvusException "index type not supported"));
     Collection_insert := @Collection_insert _ demo_pymilvus;
     Collection_flush := @Collection_flush _ demo_pymilvus;
     Collection_search := @Collection_search _ demo_pymilvus;
     Hit_str := @Hit_str _ demo_pymilvus;
     Hit_entity_get := @Hit_entity_get _ demo_pymilvus;
     Hit_distance := snd;
     Dist_le := Z.le |}.

(** the schema defined, on that store *)
Definition w_no_index : World :=
  fst (define_schema (mkWorld (init (config fields3)) [] 0 [])).
End DemoRunsNoIndex.

(** ** What a trace shows *)

Section Observations.
Context {E : Embedder} {P : Pymilvus Vec} {R : Runtime}.

(** the texts handed to the embedder, in order *)
Definition encoded (t : list Event) : list string :=
  omap (fun ev => match ev with EvEncode text => Some text | _ => None end) t.

(** the entities submitted to [Collection.insert], in order *)
Definition inserted (t : list Event) : list (Collection * Entities Vec) :=
  omap (fun ev => match ev with EvInsert c e => Some (c, e) | _ => None end) t.

(** the requests sent to the store, in order *)
Definition is_store_request (ev : Event) : bool :=
  match ev with
  | EvConnect _ _ _ | EvHasCollection _ | EvDropCollection _
  | EvCollection _ _ _ | EvCreateIndex _ _ _ | EvInsert _ _ | EvFlush _
  | EvSearch _ _ _ _ _ _ => true
  | _ => false
  end.

Definition store_requests (t : list Event) : list Event :=
  List.filter is_store_request t.

(** what the trace gained between two worlds *)
Definition new_events (w w' : World) : list Event :=
  drop (length (trace w)) (trace w').

(** the fields of a schema that are primary keys, and those that carry a
    dimension (the vector fields) *)
Definition is_vector (f : FieldSchema DataType) : bool :=
  match fs_dim f with Some _ => true | None => false end.

Definition primary_fields (s : CollectionSchema DataType) :=
  List.filter fs_is_primary (cs_fields s).

Definition vector_fields (s : CollectionSchema DataType) :=
  List.filter is_vector (cs_fields s).

(** a configuration entry whose name is [s] *)
Definition named (s : string) (entry : gmap string yaml) : bool :=
  match entry !! "name" with
  | Some v => eq_str v s
  | None => false
  end.

(** an entry that gives every key [define_schema] reads for it *)
Definition well_formed (entry : gmap string yaml) : Prop :=
  is_Some (entry !! "name") /\
  (exists s d, entry !! "dtype" = Some (YStr s) /\ DataType_getitem s = Some d) /\
  (named "embeddings" entry = false -> is_Some (entry !! "max_length")).

(** the descriptor [define_schema] derives from an entry: name, type and
    maximum length from the entry, primary key when named "pk" (never
    auto-assigned), the embedder's dimension when named "embeddings" *)
Definition describes (entry : gmap string yaml) (f : FieldSchema DataType) : Prop :=
  entry !! "name" = Some (fs_name f) /\
  (exists s, entry !! "dtype" = Some (YStr s) /\ DataType_getitem s = Some (fs_dtype f)) /\
  fs_max_length f = (if eq_str (fs_name f) "embeddings" then None else entry !! "max_length") /\
  fs_is_primary f = eq_str (fs_name f) "pk" /\
  fs_auto_id f = false /\
  fs_dim f = (if eq_str (fs_name f) "embeddings"
              then Some model_get_sentence_embedding_dimension else None).

(** [h'] holds the collection handle [c] and is otherwise as [h] *)
Definition attached_to (c : Collection) (h h' : MilvusHandler) : Prop :=
  milvus_collection h' = Some c /\
  schema h' = schema h /\
  collection_exists h' = collection_exists h /\
  collection_name h' = collection_name h /\
  description h' = description h /\
  alias h' = alias h /\ host h' = host h /\ port h' = port h /\
  config h' = config h.

(** hits in the order of their distance *)
Definition ranked (hits : list Hit) : Prop :=
  Sorted (fun a b => Dist_le (Hit_distance a) (Hit_distance b)) hits.
End Observations.

(** ** Further observations: log entries, clock readings, dimension
    queries, search vectors, and white space at the ends of a text *)

Section Readings.
Context {E : Embedder} {P : Pymilvus Vec} {R : Runtime}.

(** the entries written to the logger, in order *)
Definition logged (t : list Event) : list (Level * string) :=
  omap (fun ev => match ev with EvLog lvl msg => Some (lvl, msg) | _ => None end) t.

(** how many times the embedder was asked for its dimension *)
Definition dimension_queries (t : list Event) : nat :=
  length (List.filter (fun ev => match ev with EvGetDimension => true | _ => false end) t).

(** how many times the clock was read *)
Definition clock_reads (t : list Event) : nat :=
  length (List.filter (fun ev => match ev with EvTime => true | _ => false end) t).

(** the descriptors handed to [FieldSchema], in order *)
Definition field_schemas (t : list Event) : list (FieldSchema DataType) :=
  omap (fun ev => match ev with EvFieldSchema f => Some f | _ => None end) t.

(** the query vectors sent with each search request, in order *)
Definition searched (t : list Event) : list (list Vec) :=
  omap (fun ev => match ev with
                  | EvSearch _ data _ _ _ _ => Some data
                  | _ => None
                  end) t.

(** the log line [search] writes for a hit, and the event that records it *)
Definition hit_line (hit : Hit) : Level * string :=
  (INFO, "hit: " ++ Hit_str hit ++ ", id: " ++ Hit_entity_get hit "pk").

Definition hit_event (hit : Hit) : Event :=
  EvLog INFO ("hit: " ++ Hit_str hit ++ ", id: " ++ Hit_entity_get hit "pk").
End Readings.

(** what is wrong with a configuration entry, if anything: the [KeyError]
    for the first key [define_schema] reads and does not find *)
Definition defect {Vec : Type} {P : Pymilvus Vec} (entry : gmap string yaml) : option exn :=
  match entry !! "name" with
  | None => Some (KeyError (YStr "name"))
  | Some name =>
      match entry !! "dtype" with
      | None => Some (KeyError (YStr "dtype"))
      | Some (YStr s) =>
          match DataType_getitem s with
          | None => Some (KeyError (YStr s))
          | Some _ =>
              if eq_str name "embeddings" then None
              else match entry !! "max_length" with
                   | None => Some (KeyError (YStr "max_length"))
                   | Some _ => None
                   end
          end
      | Some d => Some (KeyError d)
      end
  end.

(** the text starts with a white-space character *)
Definition head_space (s : string) : bool :=
  match s with
  | EmptyString => false
  | String c _ => isspace c
  end.

(** the text ends with a white-space character *)
Fixpoint last_space (s : string) : bool :=
  match s with
  | EmptyString => false
  | String c EmptyString => isspace c
  | String _ s' => last_space s'
  end.

(** every character of the text is white space *)
Fixpoint blank (s : string) : bool :=
  match s with
  | EmptyString => true
  | String c s' => isspace c && blank s'
  end.

(** ** Proofs *)

Example strip_ex : strip (String "009" " a b" ++ String "010" "") = "a b".
Proof. reflexivity. Qed.

Example str_ex : map str [0; 7; 10; -42] = ["0"; "7"; "10"; "-42"].
Proof. reflexivity. Qed.

Example range_ex : range 3 6 = [3; 4; 5] /\ range 3 3 = [] /\ range 3 1 = [].
Proof. repeat split. Qed.

Section Proofs.
Context {E : Embedder} {P : Pymilvus Vec} {R : Runtime}.
Local Open Scope py_scope.

Ltac run := unfold bind, ret, raise, eval, emit, self, assign, store_call,
              store_query, clock_call, try_except_else in *; simpl in *.

Lemma encoded_app (t1 t2 : list Event) : encoded (t1 ++ t2) = (encoded t1 ++ encoded t2)%list.
Proof. apply omap_app. Qed.

Lemma inserted_app (t1 t2 : list Event) : inserted (t1 ++ t2) = (inserted t1 ++ inserted t2)%list.
Proof. apply omap_app. Qed.

Lemma store_requests_app (t1 t2 : list Event) :
  store_requests (t1 ++ t2) = (store_requests t1 ++ store_requests t2)%list.
Proof. apply List.filter_app. Qed.

Lemma encoded_encodes (l : list string) : encoded (map EvEncode l) = l.
Proof. induction l as [|x l IH]; simpl; [reflexivity|]. unfold encoded in *. simpl. now rewrite IH. Qed.

Lemma inserted_encodes (l : list string) : inserted (map EvEncode l) = [].
Proof. induction l as [|x l IH]; simpl; [reflexivity|]. exact IH. Qed.

Lemma store_requests_encodes (l : list string) : store_requests (map EvEncode l) = [].
Proof. induction l as [|x l IH]; simpl; [reflexivity|]. exact IH. Qed.

(** The comprehension of [insert_data] calls the embedder once per row, on
    the stripped row, and touches nothing else. *)
Lemma comprehension_encode (raw_data : list string) (w : World) :
  comprehension (fun sentence => encode_ (strip sentence)) raw_data w =
  (mkWorld (handler w) (store w) (clock w)
           (trace w ++ map EvEncode (map strip raw_data)),
   Ok (map model_encode (map strip raw_data))).
Proof.
  revert w. induction raw_data as [|x l IH]; intros [h s c t]; simpl.
  - unfold ret. simpl. now rewrite app_nil_r.
  - unfold encode_. run. rewrite IH. simpl. now rewrite <- app_assoc.
Qed.

Lemma range_len {A} (n : Z) (l : list A) :
  range n (n + len l) = map (fun i => n + Z.of_nat i) (seq 0 (length l)).
Proof.
  unfold range, len. replace (n + Z.of_nat (length l) - n) with (Z.of_nat (length l)) by lia.
  now rewrite Nat2Z.id.
Qed.

(** *** [insert_data] *)

(** With a collection attached: the rows are encoded, the three columns
    are submitted, and the flush follows when the insert returned. *)
Lemma insert_data_attached (w : World) (raw_data : list string) (n : Z) (c : Collection) :
  milvus_collection (handler w) = Some c ->
  exists ents tail,
    pk_column ents = map str (range n (n + len raw_data)) /\
    text_column ents = map strip raw_data /\
    embeddings_column ents = map model_encode (map strip raw_data) /\
    trace (fst (insert_data raw_data n w)) =
      (trace w ++ map EvEncode (map strip raw_data) ++ EvInsert c ents :: tail)%list /\
    (tail = [] \/ tail = [EvFlush c]) /\
    handler (fst (insert_data raw_data n w)) = handler w.
Proof.
  intros Hc. unfold insert_data. run. rewrite comprehension_encode. simpl.
  rewrite Hc. unfold insert_, flush_. run.
  destruct (Collection_insert _ _ _) as [s1 [res|e]]; simpl.
  - destruct (Collection_flush _ _) as [s2 [[]|e]]; simpl;
      eexists; exists [EvFlush c]; simpl;
      rewrite <- !app_assoc; simpl; repeat split; auto.
  - eexists; exists []; simpl; rewrite <- !app_assoc; simpl; repeat split; auto.
Qed.

(** With no collection attached: the rows are encoded all the same, then
    the error is logged and raised. *)
Lemma insert_data_detached (w : World) (raw_data : list string) (n : Z) :
  milvus_collection (handler w) = None ->
  insert_data raw_data n w =
  (mkWorld (handler w) (store w) (clock w)
     (trace w ++ map EvEncode (map strip raw_data) ++ [EvLog ERROR "Collection is empty."]),
   Raise (Exception "Collection is empty.")).
Proof.
  intros Hc. unfold insert_data. run. rewrite comprehension_encode. simpl.
  rewrite Hc. unfold logger_error. run. now rewrite <- app_assoc.
Qed.

(** C1. For every list [raw_data] of length k and every integer
    [starting_idx] = n, [insert_data] (on a handler with a collection
    attached) submits one set of entities whose primary-key column is the
    stringified contiguous range n, n+1, ..., n+k-1, whatever the texts
    are: the column is a function of n and k alone. *)
Theorem insert_data_primary_keys (w : World) (raw_data : list string) (n : Z)
    (c : Collection) :
  milvus_collection (handler w) = Some c ->
  exists ents,
    inserted (trace (fst (insert_data raw_data n w))) =
      (inserted (trace w) ++ [(c, ents)])%list /\
    pk_column ents =
      map (fun i : nat => str (n + Z.of_nat i)) (seq 0 (length raw_data)).
Proof.
  intros Hc.
  destruct (insert_data_attached w raw_data n c Hc)
    as (ents & tail & Hpk & _ & _ & Ht & Htail & _).
  exists ents. split.
  - rewrite Ht, !inserted_app, inserted_encodes. simpl.
    destruct Htail as [-> | ->]; reflexivity.
  - rewrite Hpk, range_len, map_map. reflexivity.
Qed.

(** C9. For every call to [insert_data] and every row, the embedding in
    the embeddings column is the embedder applied to the text in the text
    column of the same row: both come from the stripped input line. *)
Theorem insert_data_text_embedding_consistent (w : World)
    (raw_data : list string) (n : Z) (c : Collection) :
  milvus_collection (handler w) = Some c ->
  exists ents,
    inserted (trace (fst (insert_data raw_data n w))) =
      (inserted (trace w) ++ [(c, ents)])%list /\
    text_column ents = map strip raw_data /\
    embeddings_column ents = map model_encode (text_column ents) /\
    forall (i : nat) (line : string),
      raw_data !! i = Some line ->
      text_column ents !! i = Some (strip line) /\
      embeddings_column ents !! i = Some (model_encode (strip line)).
Proof.
  intros Hc.
  destruct (insert_data_attached w raw_data n c Hc)
    as (ents & tail & _ & Htext & Hemb & Ht & Htail & _).
  exists ents. split; [|split; [|split]].
  - rewrite Ht, !inserted_app, inserted_encodes. simpl.
    destruct Htail as [-> | ->]; reflexivity.
  - exact Htext.
  - now rewrite Htext.
  - intros i line Hi. rewrite Hemb, Htext. split.
    + rewrite list_lookup_fmap, Hi. reflexivity.
    + rewrite !list_lookup_fmap, Hi. reflexivity.
Qed.

(** C3, as the code has it. With no collection attached [insert_data]
    raises the error "Collection is empty.", after the embedding work:
    the embedder has been called once per row, on the stripped row, and
    the error is logged last. *)
Theorem insert_data_detached_raises_after_encoding (w : World)
    (raw_data : list string) (n : Z) :
  milvus_collection (handler w) = None ->
  snd (insert_data raw_data n w) = Raise (Exception "Collection is empty.") /\
  encoded (trace (fst (insert_data raw_data n w))) =
    (encoded (trace w) ++ map strip raw_data)%list /\
  new_events w (fst (insert_data raw_data n w)) =
    (map EvEncode (map strip raw_data) ++ [EvLog ERROR "Collection is empty."])%list.
Proof.
  intros Hc. rewrite (insert_data_detached _ _ _ Hc). simpl.
  split; [reflexivity|]. split.
  - rewrite !encoded_app, encoded_encodes. simpl. now rewrite app_nil_r.
  - unfold new_events. simpl. now rewrite drop_app_length.
Qed.

(** C10. When [insert_data] raises its "Collection is empty." error (no
    collection attached), nothing is submitted to the store, neither an
    insert nor a flush, and the handler and the store are left as they
    were. *)
Theorem insert_data_detached_no_store_effect (w : World)
    (raw_data : list string) (n : Z) :
  milvus_collection (handler w) = None ->
  snd (insert_data raw_data n w) = Raise (Exception "Collection is empty.") /\
  store_requests (new_events w (fst (insert_data raw_data n w))) = [] /\
  inserted (trace (fst (insert_data raw_data n w))) = inserted (trace w) /\
  handler (fst (insert_data raw_data n w)) = handler w /\
  store (fst (insert_data raw_data n w)) = store w.
Proof.
  intros Hc. rewrite (insert_data_detached _ _ _ Hc). simpl.
  repeat split.
  - unfold new_events. simpl. rewrite drop_app_length.
    now rewrite store_requests_app, store_requests_encodes.
  - rewrite !inserted_app, inserted_encodes. simpl. now rewrite app_nil_r.
Qed.

(** *** [define_schema] *)

Lemma DataType_ok (v : yaml) (w w' : World) (d : DataType) :
  DataType_ v w = (w', Ok d) ->
  w' = w /\ exists s, v = YStr s /\ DataType_getitem s = Some d.
Proof.
  unfold DataType_. destruct v as [|z|s]; run; try discriminate.
  destruct (DataType_getitem s) eqn:Hd; run; try discriminate.
  intros [= <- <-]. eauto.
Qed.

Lemma field_schema_ok (entry : gmap string yaml) (w w' : World)
    (f : FieldSchema DataType) :
  field_schema entry w = (w', Ok f) ->
  describes entry f /\ handler w' = handler w /\ store w' = store w.
Proof.
  unfold field_schema, getitem, FieldSchema_, get_sentence_embedding_dimension_,
    describes.
  run.
  destruct (entry !! "name") as [name|] eqn:Hn; run; [|discriminate].
  destruct (eq_str name "pk") eqn:Hpk;
    [|destruct (eq_str name "embeddings") eqn:Hemb];
    (destruct (entry !! "dtype") as [d|] eqn:Hd; run; [|discriminate]);
    (destruct (DataType_ d w) as [w1 [dt|e]] eqn:HD; [|discriminate]);
    apply DataType_ok in HD as (-> & s & -> & Hs).
  - destruct (entry !! "max_length") as [ml|] eqn:Hml; run; [|discriminate].
    destruct (FieldSchema_check _) as [[]|e]; [|discriminate].
    intros [= <- <-]. simpl. rewrite Hpk.
    assert (eq_str name "embeddings" = false) as ->.
    { destruct name as [| |nm]; simpl in *; try reflexivity.
      apply String.eqb_eq in Hpk. now subst. }
    eauto 10.
  - destruct (FieldSchema_check _) as [[]|e]; [|discriminate].
    intros [= <- <-]. simpl. rewrite Hpk, Hemb. eauto 10.
  - destruct (entry !! "max_length") as [ml|] eqn:Hml; run; [|discriminate].
    destruct (FieldSchema_check _) as [[]|e]; [|discriminate].
    intros [= <- <-]. simpl. rewrite Hpk, Hemb. eauto 10.
Qed.

Lemma define_fields_ok (entries : list (gmap string yaml)) :
  forall (acc fields : list (FieldSchema DataType)) (w w' : World),
  define_fields entries acc w = (w', Ok fields) ->
  handler w' = handler w /\ store w' = store w /\
  exists fs, fields = (acc ++ fs)%list /\ Forall2 describes entries fs.
Proof.
  induction entries as [|entry rest IH]; intros acc fields w w'; simpl.
  - run. intros [= <- <-]. repeat split. exists []. now rewrite app_nil_r.
  - unfold bind at 1.
    destruct (field_schema entry w) as [w1 [f|e]] eqn:Hf; [|discriminate].
    apply field_schema_ok in Hf as (Hd & Hh & Hs).
    intros Hrest. apply IH in Hrest as (Hh' & Hs' & fs & -> & Hall).
    repeat split; [congruence | congruence |].
    exists (f :: fs). rewrite <- app_assoc. split; [reflexivity|].
    now constructor.
Qed.

Lemma describes_named (entry : gmap string yaml) (f : FieldSchema DataType) (s : string) :
  describes entry f -> named s entry = eq_str (fs_name f) s.
Proof. intros (Hn & _). unfold named. now rewrite Hn. Qed.

Lemma describes_counts (entries : list (gmap string yaml))
    (fs : list (FieldSchema DataType)) :
  Forall2 describes entries fs ->
  length (List.filter fs_is_primary fs) = length (List.filter (named "pk") entries) /\
  length (List.filter is_vector fs) = length (List.filter (named "embeddings") entries).
Proof.
  induction 1 as [|entry f entries fs Hd _ [IHp IHv]]; [split; reflexivity|].
  simpl. rewrite !(describes_named _ _ _ Hd).
  destruct Hd as (_ & _ & _ & Hp & _ & Hdim).
  split.
  - rewrite Hp. destruct (eq_str (fs_name f) "pk"); simpl; congruence.
  - replace (is_vector f) with (eq_str (fs_name f) "embeddings")
      by (unfold is_vector; rewrite Hdim;
          destruct (eq_str (fs_name f) "embeddings"); reflexivity).
    destruct (eq_str (fs_name f) "embeddings"); simpl; congruence.
Qed.

Lemma field_schema_total (entry : gmap string yaml) (w : World) :
  (forall f, describes entry f -> FieldSchema_check f = Ok tt) ->
  well_formed entry ->
  exists w' f, field_schema entry w = (w', Ok f).
Proof.
  intros Hchk ([name Hn] & (s & d & Hd & Hs) & Hml).
  unfold named in Hml. rewrite Hn in Hml.
  unfold field_schema, getitem, FieldSchema_, get_sentence_embedding_dimension_,
    DataType_.
  run. rewrite Hn. run. rewrite Hd. run. rewrite Hs. run.
  destruct (eq_str name "pk") eqn:Hpk;
    [|destruct (eq_str name "embeddings") eqn:Hemb]; run.
  - assert (eq_str name "embeddings" = false) as Hemb.
    { destruct name as [| |nm]; simpl in *; try reflexivity.
      apply String.eqb_eq in Hpk. now subst. }
    destruct (Hml Hemb) as [ml Hml']. rewrite Hml'. run.
    match goal with
    | |- context [FieldSchema_check ?f] => rewrite (Hchk f)
    end; [eauto|].
    unfold describes. simpl. rewrite Hpk, Hemb. eauto 10.
  - match goal with
    | |- context [FieldSchema_check ?f] => rewrite (Hchk f)
    end; [eauto|].
    unfold describes. simpl. rewrite Hpk, Hemb. eauto 10.
  - destruct (Hml eq_refl) as [ml Hml']. rewrite Hml'. run.
    match goal with
    | |- context [FieldSchema_check ?f] => rewrite (Hchk f)
    end; [eauto|].
    unfold describes. simpl. rewrite Hpk, Hemb. eauto 10.
Qed.

Lemma define_fields_total (entries : list (gmap string yaml)) :
  (forall entry f, In entry entries -> describes entry f -> FieldSchema_check f = Ok tt) ->
  Forall well_formed entries ->
  forall (acc : list (FieldSchema DataType)) (w : World),
  exists w' fields, define_fields entries acc w = (w', Ok fields).
Proof.
  intros Hchk Hwf. induction Hwf as [|entry rest Hwf _ IH]; intros acc w; simpl.
  - run. eauto.
  - unfold bind at 1.
    destruct (field_schema_total entry w (fun f => Hchk entry f (or_introl eq_refl)) Hwf)
      as (w1 & f & ->).
    apply IH. intros entry' f' Hin. apply Hchk. now right.
Qed.

(** C2, as the code has it. [define_schema] dispatches on the name of each
    entry and checks no count.  Whenever it completes, the schema has one
    field per configured entry, in the configuration's order, each derived
    from its entry (name, type and maximum length from the entry; primary
    key, never auto-assigned, exactly when the entry is named "pk"; a
    dimension, the embedder's reported one, exactly when it is named
    "embeddings"); so it has as many primary-key fields as there are "pk"
    entries and as many vector fields as there are "embeddings" entries.
    It completes whenever every entry gives the keys read for it, with a
    type name that [DataType] has, and pymilvus accepts the descriptors
    derived from these entries and the schema made of them. *)
Theorem define_schema_follows_configuration (w : World) :
  let entries := milvus_fields (config (handler w)) in
  (forall w', define_schema w = (w', Ok tt) ->
     exists s,
       schema (handler w') = Some s /\
       cs_description s = description (handler w) /\
       Forall2 describes entries (cs_fields s) /\
       map (fun f => Some (fs_name f)) (cs_fields s) =
         map (fun entry => entry !! "name") entries /\
       length (primary_fields s) = length (List.filter (named "pk") entries) /\
       length (vector_fields s) = length (List.filter (named "embeddings") entries) /\
       Forall (fun f => fs_dim f = Some model_get_sentence_embedding_dimension)
              (vector_fields s)) /\
  ((forall entry f, In entry entries -> describes entry f ->
      FieldSchema_check f = Ok tt) ->
   (forall s, Forall2 describes entries (cs_fields s) ->
      cs_description s = description (handler w) ->
      CollectionSchema_check s = Ok tt) ->
   Forall well_formed entries ->
   exists w', define_schema w = (w', Ok tt)).
Proof.
  intros entries. subst entries. split.
  - intros w'. unfold define_schema. run.
    destruct (define_fields _ [] w) as [w1 [fields|e]] eqn:Hf; [|discriminate].
    apply define_fields_ok in Hf as (Hh & Hs & fs & -> & Hall). simpl in *.
    unfold CollectionSchema_. run.
    destruct (CollectionSchema_check _) as [[]|e]; [|discriminate].
    intros [= <-]. simpl. eexists. split; [reflexivity|]. simpl.
    destruct (describes_counts _ _ Hall) as [Hp Hv].
    repeat split; auto.
    + clear -Hall. induction Hall as [|x y l l' (Hn & _) _ IH]; simpl; [reflexivity|].
      now rewrite IH, Hn.
    + unfold vector_fields. simpl. apply List.Forall_forall.
      intros f Hin. apply List.filter_In in Hin as [Hin Hv'].
      assert (Hd : exists entry, describes entry f).
      { clear -Hall Hin. induction Hall; [destruct Hin|].
        destruct Hin as [<-|Hin]; eauto. }
      destruct Hd as (entry & _ & _ & _ & _ & _ & Hdim).
      unfold is_vector in Hv'. rewrite Hdim in *.
      now destruct (eq_str (fs_name f) "embeddings").
  - intros Hf Hs Hwf. unfold define_schema. run.
    destruct (define_fields_total _ Hf Hwf [] w) as (w1 & fields & Hrun).
    rewrite Hrun.
    apply define_fields_ok in Hrun as (Hh & _ & fs & -> & Hall). simpl in *.
    unfold CollectionSchema_. run. rewrite Hh.
    rewrite (Hs (mkCollectionSchema DataType fs (description (handler w))) Hall eq_refl).
    eauto.
Qed.

(** *** [check_collection_existence] *)

(** C5, as the code has it. [check_collection_existence] returns nothing:
    it asks the store whether the collection exists and records the answer
    in the handler's [collection_exists] flag, its one effect on the
    handler.  It sends the store that single query and leaves the store as
    it was, so that calling it again, with no create or drop in between,
    records the same boolean and leaves the handler as the first call
    left it. *)
Theorem check_collection_existence_records_answer (w : World) :
  let name := collection_name (handler w) in
  let w1 := fst (check_collection_existence w) in
  let w2 := fst (check_collection_existence w1) in
  (forall b, utility_has_collection (store w) name = Ok b ->
     snd (check_collection_existence w) = Ok tt /\
     handler w1 = set_collection_exists b (handler w) /\
     snd (check_collection_existence w1) = Ok tt /\
     collection_exists (handler w2) = collection_exists (handler w1) /\
     handler w2 = handler w1) /\
  new_events w w1 = [EvHasCollection name] /\
  store w1 = store w /\ store w2 = store w.
Proof.
  unfold check_collection_existence, has_collection_, new_events. run.
  destruct (utility_has_collection (store w) (collection_name (handler w)))
    as [b|e] eqn:Hb; simpl; rewrite ?Hb; simpl.
  - split; [intros b' [= <-]; repeat split|].
    rewrite drop_app_length. repeat split.
  - split; [intros b' [=]|].
    rewrite drop_app_length. repeat split.
Qed.

(** *** [drop_db] *)

(** C8, as the code has it. [drop_db] returns normally whatever the store
    answers to the drop request.  It logs a failure exactly when the
    request raises: the exception is logged as an error and nothing is
    raised.  Whenever the request returns, it logs the success line; that
    is the case too for a collection the store does not have, when the
    store does not make an error of it.  The value returned and the handler
    are the same in both cases, so the return alone does not tell a
    successful drop from a failed one. *)
Theorem drop_db_never_raises (w : World) :
  let name := collection_name (handler w) in
  let w' := fst (drop_db w) in
  snd (drop_db w) = Ok tt /\
  handler w' = handler w /\
  store w' = fst (utility_drop_collection (store w) name) /\
  new_events w w' =
    [EvDropCollection name;
     match snd (utility_drop_collection (store w) name) with
     | Ok _ => EvLog INFO ("Collection " ++ name ++ " successfully dropped.")
     | Raise e =>
         EvLog ERROR
           ("Something went wrong while trying to drop the collection: " ++ str_exn e)
     end].
Proof.
  unfold drop_db, drop_collection_, logger_info, logger_error, new_events. run.
  destruct (utility_drop_collection _ _) as [s' [[]|e]]; simpl;
    rewrite <- app_assoc, drop_app_length; repeat split.
Qed.

(** *** [connect_to_collection] *)

(** C6. [connect_to_collection] branches on the existence flag.  When it is
    set, the one request to the store is [Collection(name)], with no schema
    and no consistency level: the handler's schema plays no part, and the
    handle returned is attached.  When it is not set, the request is
    [Collection(name, schema, consistency_level="Strong")] with the
    handler's schema; once that returns a handle, an index is requested on
    the field "embeddings" with type IVF_FLAT, metric L2 and nlist 128, and
    once that returns the handle is attached.  Attached means that the
    handler's [milvus_collection] is the handle the store returned, the
    other attributes being as before. *)
Theorem connect_to_collection_branches (w : World) :
  let h := handler w in
  let name := collection_name h in
  let w' := fst (connect_to_collection w) in
  let index := {| index_type := "IVF_FLAT"; index_metric_type := "L2"; nlist := 128 |} in
  (collection_exists h = true ->
     new_events w w' =
       [EvLog INFO ("Collection: " ++ name ++ " already exists.");
        EvCollection name None None] /\
     (forall s' c, Collection_init (store w) name None None = (s', Ok c) ->
        snd (connect_to_collection w) = Ok tt /\
        milvus_collection (handler w') = Some c /\
        attached_to c h (handler w') /\
        handler w' = set_milvus_collection c h /\ store w' = s') /\
     (forall sch,
        let ws := mkWorld (set_schema sch h) (store w) (clock w) (trace w) in
        trace (fst (connect_to_collection ws)) = trace w' /\
        store (fst (connect_to_collection ws)) = store w' /\
        snd (connect_to_collection ws) = snd (connect_to_collection w) /\
        milvus_collection (handler (fst (connect_to_collection ws))) =
          milvus_collection (handler w'))) /\
  (collection_exists h = false ->
     store_requests (firstn 1 (new_events w w')) =
       [EvCollection name (schema h) (Some "Strong")] /\
     (forall s1 c,
        Collection_init (store w) name (schema h) (Some "Strong") = (s1, Ok c) ->
        new_events w w' =
          [EvCollection name (schema h) (Some "Strong");
           EvLog INFO "Start Creating index IVF_FLAT";
           EvCreateIndex c "embeddings" index] /\
        (forall s2,
           Collection_create_index s1 c "embeddings" index = (s2, Ok tt) ->
           snd (connect_to_collection w) = Ok tt /\
           milvus_collection (handler w') = Some c /\
           attached_to c h (handler w') /\
           handler w' = set_milvus_collection c h /\ store w' = s2))).
Proof.
  unfold connect_to_collection, Collection_, create_index_, logger_info, new_events.
  run. split; intros Hex; rewrite Hex; run.
  - split; [|split].
    + destruct (Collection_init _ _ _ _) as [s' [c|e]]; simpl;
        now rewrite <- app_assoc, drop_app_length.
    + intros s' c ->. simpl. repeat split.
    + intros sch. destruct (Collection_init _ _ _ _) as [s' [c|e]]; simpl;
        repeat split.
  - split.
    + destruct (Collection_init _ _ _ _) as [s1 [c|e]]; simpl;
        [destruct (Collection_create_index _ _ _ _) as [s2 [[]|e]]; simpl|];
        rewrite <- ?app_assoc, drop_app_length; reflexivity.
    + intros s1 c ->. simpl. split.
      * destruct (Collection_create_index _ _ _ _) as [s2 [[]|e]]; simpl;
          rewrite <- !app_assoc, drop_app_length; reflexivity.
      * intros s2 ->. simpl. repeat split.
Qed.

(** *** [search] *)

Lemma for_logger_info (hits : list Hit) (msg : Hit -> string) (w : World) :
  for_ hits (fun hit => logger_info (msg hit)) w =
  (mkWorld (handler w) (store w) (clock w)
           (trace w ++ map (fun hit => EvLog INFO (msg hit)) hits),
   Ok tt).
Proof.
  revert w. induction hits as [|hit hits IH]; intros [h s c t]; simpl.
  - unfold ret. simpl. now rewrite app_nil_r.
  - unfold logger_info. run. rewrite IH. simpl. now rewrite <- app_assoc.
Qed.

(** The loops log and leave [hits] bound to the last group, if any. *)
Lemma log_hits_last (result : list (list Hit)) :
  forall (hits : option (list Hit)) (w : World),
  exists logs,
    log_hits result hits w =
      (mkWorld (handler w) (store w) (clock w) (trace w ++ logs),
       Ok (match last result with Some g => Some g | None => hits end)) /\
    encoded logs = [] /\ store_requests logs = [].
Proof.
  induction result as [|g rest IH]; intros hits [h s c t]; simpl.
  - exists []. unfold ret. simpl. now rewrite app_nil_r.
  - unfold bind at 1. rewrite for_logger_info. simpl.
    destruct (IH (Some g) (mkWorld h s c
                (t ++ map (fun hit => EvLog INFO
                   ("hit: " ++ Hit_str hit ++ ", id: " ++ Hit_entity_get hit "pk")) g)))
      as (logs & -> & Henc & Hreq).
    simpl. eexists. rewrite <- app_assoc. split; [|split].
    + f_equal. f_equal. rewrite last_cons. now destruct (last rest).
    + rewrite encoded_app, Henc, app_nil_r. clear. now induction g.
    + rewrite store_requests_app, Hreq, app_nil_r. clear. now induction g.
Qed.

(** With a collection attached and an answer from the store: what [search]
    sends, returns and leaves behind. *)
Lemma search_attached (w : World) (text : string) (limit : Z)
    (output_fields : list string) (c : Collection) (s' : Store)
    (groups : list (list Hit)) :
  milvus_collection (handler w) = Some c ->
  Collection_search (store w) c [model_encode text] "embeddings"
    {| metric_type := "L2"; nprobe := 10 |} limit output_fields = (s', Ok groups) ->
  exists logs,
    encoded logs = [] /\ store_requests logs = [] /\
    trace (fst (search text limit output_fields w)) =
      (trace w ++
       [EvEncode text; EvTime;
        EvSearch c [model_encode text] "embeddings"
          {| metric_type := "L2"; nprobe := 10 |} limit output_fields] ++ logs)%list /\
    snd (search text limit output_fields w) =
      match last groups with
      | Some hits => Ok hits
      | None => Raise (UnboundLocalError "hits")
      end /\
    handler (fst (search text limit output_fields w)) = handler w /\
    store (fst (search text limit output_fields w)) = s'.
Proof.
  intros Hc Hs. unfold search, encode_, time_, search_, logger_info. run.
  destruct (time_time (clock w)) as [c1 t0] eqn:Ht0. simpl.
  rewrite Hc. run. rewrite Hs. simpl.
  destruct (time_time c1) as [c2 t1] eqn:Ht1. simpl.
  match goal with
  | |- context [log_hits groups None ?w1] =>
      destruct (log_hits_last groups None w1) as (logs & -> & Henc & Hreq)
  end.
  simpl. destruct (last groups) as [hits|]; simpl.
  - exists ([EvTime] ++ logs ++ [EvLog INFO ("Search latency: " ++ str_elapsed t0 t1)])%list.
    rewrite !encoded_app, !store_requests_app, Henc, Hreq. simpl.
    repeat split. rewrite <- !app_assoc. reflexivity.
  - exists ([EvTime] ++ logs ++ [EvLog INFO ("Search latency: " ++ str_elapsed t0 t1)])%list.
    rewrite !encoded_app, !store_requests_app, Henc, Hreq. simpl.
    repeat split. rewrite <- !app_assoc. reflexivity.
Qed.



(** C4. [search] sends one query vector, and the store answers one group
    per query vector: [search] then returns that group and raises nothing.
    On an empty collection the answer holds no hit, and [search] returns
    zero hits, without error; the handler is unchanged. *)
Theorem search_empty_collection_no_hits (w : World) (text : string) (limit : Z)
    (output_fields : list string) (c : Collection) (s' : Store)
    (groups : list (list Hit)) :
  milvus_collection (handler w) = Some c ->
  Collection_search (store w) c [model_encode text] "embeddings"
    {| metric_type := "L2"; nprobe := 10 |} limit output_fields = (s', Ok groups) ->
  length groups = length [model_encode text] ->
  (exists hits, groups = [hits] /\ snd (search text limit output_fields w) = Ok hits) /\
  (concat groups = [] -> snd (search text limit output_fields w) = Ok []) /\
  handler (fst (search text limit output_fields w)) = handler w.
Proof.
  intros Hc Hs Hlen.
  destruct (search_attached w text limit output_fields c s' _ Hc Hs)
    as (logs & _ & _ & _ & Hr & Hh & _).
  destruct groups as [|hits [|g rest]]; try discriminate Hlen.
  simpl in Hr. repeat split; [eauto| |exact Hh].
  simpl. rewrite app_nil_r. now intros ->.
Qed.

(** An answer with no group at all, which a store answering one group per
    query vector does not give, would leave [hits] unbound. *)
Lemma search_no_group (w : World) (text : string) (limit : Z)
    (output_fields : list string) (c : Collection) (s' : Store) :
  milvus_collection (handler w) = Some c ->
  Collection_search (store w) c [model_encode text] "embeddings"
    {| metric_type := "L2"; nprobe := 10 |} limit output_fields = (s', Ok []) ->
  snd (search text limit output_fields w) = Raise (UnboundLocalError "hits").
Proof.
  intros Hc Hs.
  destruct (search_attached w text limit output_fields c s' _ Hc Hs)
    as (logs & _ & _ & _ & Hr & _).
  exact Hr.
Qed.
End Proofs.

(** ** The theorems at work on the demonstration instance *)

Section Scenarios.
Import Demo.
#[local] Existing Instance runtime.
#[local] Existing Instance demo_embedder.
#[local] Existing Instance demo_pymilvus.

Example w_attached_collection :
  milvus_collection (handler w_attached) = Some "sentences" /\
  store w_attached = [("sentences", [])].
Proof. vm_compute. split; reflexivity. Qed.

(** Scenario B: on an empty collection, [insert_data ["a"; "b"] 0]
    submits the primary keys "0" and "1". *)
Lemma insert_data_primary_keys_witness :
  exists ents,
    inserted (trace (fst (insert_data ["a"; "b"] 0 w_attached))) =
      (inserted (trace w_attached) ++ [("sentences", ents)])%list /\
    pk_column ents = ["0"; "1"].
Proof.
  apply (insert_data_primary_keys w_attached ["a"; "b"] 0 "sentences").
  vm_compute. reflexivity.
Defined.

Lemma insert_data_text_embedding_consistent_witness :
  exists ents,
    inserted (trace (fst (insert_data ["a"; " bb "] 0 w_attached))) =
      (inserted (trace w_attached) ++ [("sentences", ents)])%list /\
    text_column ents = ["a"; "bb"] /\
    embeddings_column ents = map model_encode (text_column ents) /\
    forall (i : nat) (line : string),
      ["a"; " bb "] !! i = Some line ->
      text_column ents !! i = Some (strip line) /\
      embeddings_column ents !! i = Some (model_encode (strip line)).
Proof.
  apply (insert_data_text_embedding_consistent w_attached ["a"; " bb "] 0 "sentences").
  vm_compute. reflexivity.
Defined.

(** C3 as stated fails: with no collection attached the error is raised,
    but only after the embedder has been called on the row. *)
Lemma insert_data_encodes_before_check :
  milvus_collection (handler w0) = None /\
  snd (insert_data ["a"] 0 w0) = Raise (Exception "Collection is empty.") /\
  encoded (new_events w0 (fst (insert_data ["a"] 0 w0))) = ["a"] /\
  encoded (new_events w0 (fst (insert_data ["a"] 0 w0))) <> [].
Proof. vm_compute. repeat split. discriminate. Qed.

Lemma insert_data_detached_raises_after_encoding_witness :
  snd (insert_data ["a"; " bb "] 0 w0) = Raise (Exception "Collection is empty.") /\
  encoded (trace (fst (insert_data ["a"; " bb "] 0 w0))) =
    (encoded (trace w0) ++ ["a"; "bb"])%list /\
  new_events w0 (fst (insert_data ["a"; " bb "] 0 w0)) =
    [EvEncode "a"; EvEncode "bb"; EvLog ERROR "Collection is empty."].
Proof.
  apply (insert_data_detached_raises_after_encoding w0 ["a"; " bb "] 0).
  reflexivity.
Defined.

Lemma insert_data_detached_no_store_effect_witness :
  snd (insert_data ["a"; " bb "] 0 w_defined) = Raise (Exception "Collection is empty.") /\
  store_requests (new_events w_defined (fst (insert_data ["a"; " bb "] 0 w_defined))) = [] /\
  inserted (trace (fst (insert_data ["a"; " bb "] 0 w_defined))) =
    inserted (trace w_defined) /\
  handler (fst (insert_data ["a"; " bb "] 0 w_defined)) = handler w_defined /\
  store (fst (insert_data ["a"; " bb "] 0 w_defined)) = store w_defined.
Proof.
  apply (insert_data_detached_no_store_effect w_defined ["a"; " bb "] 0).
  vm_compute. reflexivity.
Defined.

(** C5 as stated fails: the call changes the handler, whose flag goes
    from false to true when the store has the collection. *)
Lemma check_collection_existence_changes_handler :
  snd (check_collection_existence w_stored) = Ok tt /\
  collection_exists (handler w_stored) = false /\
  collection_exists (handler (fst (check_collection_existence w_stored))) = true /\
  handler (fst (check_collection_existence w_stored)) <> handler w_stored.
Proof.
  repeat split. intros H. apply (f_equal collection_exists) in H. discriminate H.
Qed.

Lemma check_collection_existence_records_answer_witness :
  snd (check_collection_existence w_stored) = Ok tt /\
  handler (fst (check_collection_existence w_stored)) =
    set_collection_exists true (handler w_stored) /\
  snd (check_collection_existence (fst (check_collection_existence w_stored))) = Ok tt /\
  collection_exists
    (handler (fst (check_collection_existence (fst (check_collection_existence w_stored))))) =
    collection_exists (handler (fst (check_collection_existence w_stored))) /\
  handler (fst (check_collection_existence (fst (check_collection_existence w_stored)))) =
    handler (fst (check_collection_existence w_stored)).
Proof.
  apply (proj1 (check_collection_existence_records_answer w_stored) true).
  reflexivity.
Defined.

(** Both branches: a store that has the collection, and one that has not. *)
Lemma connect_to_collection_branches_witness :
  (snd (connect_to_collection w_checked) = Ok tt /\
   milvus_collection (handler (fst (connect_to_collection w_checked))) = Some "sentences" /\
   attached_to "sentences" (handler w_checked)
     (handler (fst (connect_to_collection w_checked))) /\
   handler (fst (connect_to_collection w_checked)) =
     set_milvus_collection "sentences" (handler w_checked) /\
   store (fst (connect_to_collection w_checked)) = [("sentences", [])]) /\
  (snd (connect_to_collection w_defined) = Ok tt /\
   milvus_collection (handler (fst (connect_to_collection w_defined))) = Some "sentences" /\
   attached_to "sentences" (handler w_defined)
     (handler (fst (connect_to_collection w_defined))) /\
   handler (fst (connect_to_collection w_defined)) =
     set_milvus_collection "sentences" (handler w_defined) /\
   store (fst (connect_to_collection w_defined)) = [("sentences", [])]).
Proof.
  split.
  - apply (proj1 (proj2 (proj1 (connect_to_collection_branches w_checked) eq_refl))
             [("sentences", [])] "sentences").
    reflexivity.
  - assert (Hflag : collection_exists (handler w_defined) = false)
      by (vm_compute; reflexivity).
    apply (proj2 (proj2 (proj2 (connect_to_collection_branches w_defined) Hflag)
                    [("sentences", [])] "sentences" ltac:(vm_compute; reflexivity))
             [("sentences", [])]).
    vm_compute. reflexivity.
Defined.

Example w_seeded_rows :
  store w_seeded = [("sentences", [("0", "a", [1; 1]); ("1", "bb", [2; 2])])].
Proof. vm_compute. reflexivity. Qed.



(** Scenario D: a search on the empty collection just created. *)
Lemma search_empty_collection_no_hits_witness :
  rows_of (store w_attached) "sentences" = [] /\
  snd (search "a query" 3 ["pk"; "sentence"] w_attached) = Ok [] /\
  handler (fst (search "a query" 3 ["pk"; "sentence"] w_attached)) = handler w_attached.
Proof.
  split; [vm_compute; reflexivity|].
  destruct (search_empty_collection_no_hits w_attached "a query" 3 ["pk"; "sentence"]
              "sentences" (store w_attached) [[]]) as (_ & Hzero & Hh).
  - vm_compute. reflexivity.
  - vm_compute. reflexivity.
  - reflexivity.
  - split; [apply Hzero; reflexivity|exact Hh].
Defined.

(** C2 as stated fails: a configuration with a "pk" entry and no
    "embeddings" entry gives a schema with a primary key and no vector
    field. *)
Lemma define_schema_without_embeddings :
  snd (define_schema w_no_embeddings) = Ok tt /\
  exists s,
    schema (handler (fst (define_schema w_no_embeddings))) = Some s /\
    map fs_name (cs_fields s) = [YStr "pk"; YStr "sentence"] /\
    length (primary_fields s) = 1%nat /\
    length (vector_fields s) = 0%nat /\
    length (vector_fields s) <> 1%nat.
Proof.
  split; [vm_compute; reflexivity|].
  eexists. split; [vm_compute; reflexivity|].
  vm_compute. repeat split; discriminate.
Qed.

(** and with no "pk" entry pymilvus refuses the schema: none is installed *)
Example define_schema_without_pk_raises :
  snd (define_schema w_no_pk) =
    Raise (MilvusException "Schema must have a primary key field.") /\
  schema (handler (fst (define_schema w_no_pk))) = None.
Proof. vm_compute. split; reflexivity. Qed.
End Scenarios.

Section ScenarioA.
Import Demo.
#[local] Existing Instance runtime.
#[local] Existing Instance embedder384.
#[local] Existing Instance pymilvus384.

(** Scenario A: pk (36), sentence (500), embeddings, and an embedder of
    dimension 384: the schema has the three fields in that order, one
    primary key, and one vector field, of dimension 384. *)
Lemma define_schema_follows_configuration_witness :
  (exists w', define_schema w384 = (w', Ok tt)) /\
  exists s,
    schema (handler (fst (define_schema w384))) = Some s /\
    cs_description s = "demo" /\
    Forall2 describes fields3 (cs_fields s) /\
    map (fun f => Some (fs_name f)) (cs_fields s) =
      [Some (YStr "pk"); Some (YStr "sentence"); Some (YStr "embeddings")] /\
    length (primary_fields s) = 1%nat /\
    length (vector_fields s) = 1%nat /\
    Forall (fun f => fs_dim f = Some 384) (vector_fields s).
Proof.
  split.
  - apply (proj2 (define_schema_follows_configuration w384)).
    + intros entry f _ _. reflexivity.
    + intros s Hall _. change (milvus_fields _) with fields3 in Hall.
      unfold fields3 in Hall. inversion Hall as [|e1 f1 l1 l1' Hd1 _ He1 Hf1].
      destruct Hd1 as (Hn & _ & _ & Hp & _).
      assert (Hl : field "pk" "VARCHAR" (YInt 36) !! "name" = Some (YStr "pk"))
        by (vm_compute; reflexivity).
      rewrite Hl in Hn. injection Hn as Hn.
      assert (Hprim : fs_is_primary f1 = true)
        by exact (eq_trans Hp (f_equal (fun v => eq_str v "pk") (eq_sym Hn))).
      simpl. rewrite <- Hf1. simpl.
      match goal with
      | |- (if ?b || _ then _ else _) = _ =>
          assert (Hb : b = true) by exact Hprim; rewrite Hb
      end.
      reflexivity.
    + repeat constructor; vm_compute; eauto; discriminate.
  - apply (proj1 (define_schema_follows_configuration w384)
             (fst (define_schema w384))).
    vm_compute. reflexivity.
Defined.
End ScenarioA.

Section ScenarioE.
Import Demo.
#[local] Existing Instance runtime.
#[local] Existing Instance demo_embedder.
#[local] Existing Instance demo_pymilvus.

(** Scenario C: one more row, starting at the count 2. *)
Example insert_third_row :
  map (fun ce => pk_column (snd ce))
      (inserted (new_events w_seeded (fst (insert_data ["c"] 2 w_seeded)))) = [["2"]].
Proof. vm_compute. reflexivity. Qed.

(** C8 as stated fails on its first limb: the store does not have the
    collection, the drop request returns all the same, and [drop_db] logs
    the success line, no failure. *)
Lemma drop_db_absent_logs_success :
  utility_has_collection (store w0) (collection_name (handler w0)) = Ok false /\
  snd (drop_db w0) = Ok tt /\
  logged (new_events w0 (fst (drop_db w0))) =
    [(INFO, "Collection sentences successfully dropped.")] /\
  logged (new_events w0 (fst (drop_db w0))) <>
    [(ERROR, "Something went wrong while trying to drop the collection: " ++
             str_exn (MilvusException "collection not found"))].
Proof. vm_compute. repeat split. discriminate. Qed.

Example drop_db_present :
  snd (drop_db w_seeded) = Ok tt /\ store (fst (drop_db w_seeded)) = [].
Proof. vm_compute. split; reflexivity. Qed.
End ScenarioE.

(** ** Beyond the claims: the built-ins *)

Lemma str_inj (a b : Z) : str a = str b -> a = b.
Proof.
  unfold str. intros H.
  assert (Hnz : forall z, Z.to_int z <> Decimal.Pos Decimal.Nil /\
                          Z.to_int z <> Decimal.Neg Decimal.Nil).
  { intros [|p|p]; simpl; split; try discriminate;
      intros [= Hp]; now apply DecimalPos.Unsigned.to_uint_nonnil in Hp. }
  assert (Hi : Some (Z.to_int a) = Some (Z.to_int b)).
  { rewrite <- (NilZero.isi (Z.to_int a)), <- (NilZero.isi (Z.to_int b));
      try apply Hnz. now rewrite H. }
  injection Hi as Hi. rewrite <- (DecimalZ.of_to a), <- (DecimalZ.of_to b).
  now rewrite Hi.
Qed.

Lemma range_NoDup (a b : Z) : NoDup (range a b).
Proof.
  unfold range. apply NoDup_fmap_2.
  - intros i j Hij. lia.
  - apply NoDup_seq.
Qed.

Lemma range_app (n : Z) (k1 k2 : nat) :
  (range n (n + Z.of_nat k1) ++ range (n + Z.of_nat k1) (n + Z.of_nat k1 + Z.of_nat k2))%list
  = range n (n + Z.of_nat (k1 + k2)).
Proof.
  unfold range.
  replace (n + Z.of_nat k1 - n) with (Z.of_nat k1) by lia.
  replace (n + Z.of_nat k1 + Z.of_nat k2 - (n + Z.of_nat k1)) with (Z.of_nat k2) by lia.
  replace (n + Z.of_nat (k1 + k2) - n) with (Z.of_nat (k1 + k2)) by lia.
  rewrite !Nat2Z.id, seq_app, map_app. f_equal.
  generalize 0%nat as st. induction k2 as [|k2 IH]; intros st; simpl; [reflexivity|].
  f_equal; [lia|].
  replace (S (st + k1)) with (S st + k1)%nat by lia. apply IH.
Qed.

Lemma lstrip_head (s : string) : head_space (lstrip s) = false.
Proof.
  induction s as [|c s IH]; simpl; [reflexivity|].
  destruct (isspace c) eqn:Hc; [exact IH|]. simpl. exact Hc.
Qed.

Lemma rstrip_last (s : string) : last_space (rstrip s) = false.
Proof.
  induction s as [|c s IH]; simpl; [reflexivity|].
  destruct (rstrip s) as [|c' r] eqn:Hr.
  - destruct (isspace c) eqn:Hc; simpl; [reflexivity|exact Hc].
  - exact IH.
Qed.

Lemma lstrip_last (s : string) : last_space s = false -> last_space (lstrip s) = false.
Proof.
  induction s as [|c s IH]; [reflexivity|].
  intros H. change (lstrip (String c s)) with (if isspace c then lstrip s else String c s).
  destruct (isspace c) eqn:Hc; [|exact H].
  apply IH. destruct s; [reflexivity|exact H].
Qed.

Lemma lstrip_fixed (s : string) : head_space s = false -> lstrip s = s.
Proof. destruct s as [|c s]; simpl; [reflexivity|]. now intros ->. Qed.

Lemma rstrip_fixed (s : string) : last_space s = false -> rstrip s = s.
Proof.
  induction s as [|c s IH]; simpl; [reflexivity|].
  destruct s as [|c' s'].
  - simpl. now intros ->.
  - intros H. rewrite (IH H). reflexivity.
Qed.

Lemma rstrip_blank (s : string) : blank s = true -> rstrip s = EmptyString.
Proof.
  induction s as [|c s IH]; simpl; [reflexivity|].
  intros [Hc Hs]%andb_prop. rewrite (IH Hs), Hc. reflexivity.
Qed.

(** What [strip] leaves: no white space at either end, nothing at all of a
    blank text, and a text that [strip] does not change again. *)
Lemma strip_spec (s : string) :
  head_space (strip s) = false /\ last_space (strip s) = false /\
  strip (strip s) = strip s /\ (blank s = true -> strip s = EmptyString).
Proof.
  unfold strip. repeat split.
  - apply lstrip_head.
  - apply lstrip_last, rstrip_last.
  - rewrite (rstrip_fixed (lstrip (rstrip s))) by apply lstrip_last, rstrip_last.
    apply lstrip_fixed, lstrip_head.
  - intros Hb. now rewrite (rstrip_blank s Hb).
Qed.

(** ** Beyond the claims: the methods *)

Section MoreProofs.
Context {E : Embedder} {P : Pymilvus Vec} {R : Runtime}.
Local Open Scope py_scope.

Ltac run := unfold bind, ret, raise, eval, emit, self, assign, store_call,
              store_query, clock_call, try_except_else in *; simpl in *.

Lemma logged_app (t1 t2 : list Event) : logged (t1 ++ t2) = (logged t1 ++ logged t2)%list.
Proof. apply omap_app. Qed.

Lemma searched_app (t1 t2 : list Event) : searched (t1 ++ t2) = (searched t1 ++ searched t2)%list.
Proof. apply omap_app. Qed.

Lemma field_schemas_app (t1 t2 : list Event) :
  field_schemas (t1 ++ t2) = (field_schemas t1 ++ field_schemas t2)%list.
Proof. apply omap_app. Qed.

Lemma dimension_queries_app (t1 t2 : list Event) :
  dimension_queries (t1 ++ t2) = (dimension_queries t1 + dimension_queries t2)%nat.
Proof. unfold dimension_queries. now rewrite List.filter_app, length_app. Qed.

Lemma new_events_app (w w' : World) (evs : list Event) :
  trace w' = (trace w ++ evs)%list -> new_events w w' = evs.
Proof. intros H. unfold new_events. rewrite H. apply drop_app_length. Qed.

Lemma new_events_mk (w : World) (h : MilvusHandler) (s : Store) (c : Clock)
    (evs : list Event) :
  new_events w (mkWorld h s c (trace w ++ evs)) = evs.
Proof. now apply new_events_app. Qed.

(** *** [insert_data] *)

(** The whole run with a collection attached. *)
Lemma insert_data_run (w : World) (raw_data : list string) (n : Z) (c : Collection) :
  milvus_collection (handler w) = Some c ->
  let ents := {| pk_column := map str (range n (n + len raw_data));
                 text_column := map strip raw_data;
                 embeddings_column := map model_encode (map strip raw_data) |} in
  let encs := map EvEncode (map strip raw_data) in
  insert_data raw_data n w =
  match Collection_insert (store w) c ents with
  | (s1, Raise e) =>
      (mkWorld (handler w) s1 (clock w) (trace w ++ encs ++ [EvInsert c ents]), Raise e)
  | (s1, Ok res) =>
      (mkWorld (handler w) (fst (Collection_flush s1 c)) (clock w)
               (trace w ++ encs ++ [EvInsert c ents; EvFlush c]),
       match snd (Collection_flush s1 c) with
       | Ok _ => Ok res
       | Raise e => Raise e
       end)
  end.
Proof.
  intros Hc ents encs. subst ents encs. unfold insert_data. run.
  rewrite comprehension_encode. simpl.
  rewrite Hc. unfold insert_, flush_. run.
  destruct (Collection_insert _ _ _) as [s1 [res|e]]; simpl.
  - destruct (Collection_flush _ _) as [s2 [[]|e]]; simpl;
      rewrite <- !app_assoc; reflexivity.
  - rewrite <- !app_assoc; reflexivity.
Qed.

(** X1. With a collection attached, [insert_data] sends the insert and, only
    when the insert returned, the flush; it returns the insert's result only
    when the flush returned too, and otherwise raises what the store raised.
    The handler is not changed. *)
Theorem insert_data_flushes_after_insert (w : World) (raw_data : list string)
    (n : Z) (c : Collection) :
  milvus_collection (handler w) = Some c ->
  let w' := fst (insert_data raw_data n w) in
  handler w' = handler w /\
  exists ents,
    inserted (new_events w w') = [(c, ents)] /\
    match Collection_insert (store w) c ents with
    | (s1, Raise e) =>
        snd (insert_data raw_data n w) = Raise e /\
        store_requests (new_events w w') = [EvInsert c ents] /\
        store w' = s1
    | (s1, Ok res) =>
        store_requests (new_events w w') = [EvInsert c ents; EvFlush c] /\
        store w' = fst (Collection_flush s1 c) /\
        snd (insert_data raw_data n w) =
          match snd (Collection_flush s1 c) with
          | Ok _ => Ok res
          | Raise e => Raise e
          end
    end.
Proof.
  intros Hc w'. subst w'. rewrite (insert_data_run w raw_data n c Hc).
  match goal with
  | |- context [Collection_insert (store w) c ?e] =>
      destruct (Collection_insert (store w) c e) as [s1 [res|e']] eqn:Hins
  end; simpl; (split; [reflexivity|]); eexists;
    rewrite Hins; rewrite new_events_mk;
    rewrite !inserted_app, !store_requests_app, inserted_encodes, store_requests_encodes;
    simpl; repeat split.
Qed.

(** X2. On every path, with or without a collection attached, [insert_data]
    calls the embedder exactly once per row, in the order of the rows, on
    the stripped row. *)
Theorem insert_data_encodes_each_row (w : World) (raw_data : list string) (n : Z) :
  encoded (new_events w (fst (insert_data raw_data n w))) = map strip raw_data.
Proof.
  destruct (milvus_collection (handler w)) as [c|] eqn:Hc.
  - rewrite (insert_data_run w raw_data n c Hc).
    destruct (Collection_insert _ _ _) as [s1 [res|e']]; simpl;
      rewrite new_events_mk, encoded_app, encoded_encodes;
      simpl; apply app_nil_r.
  - rewrite (insert_data_detached w raw_data n Hc). simpl.
    rewrite new_events_mk, encoded_app, encoded_encodes.
    simpl. apply app_nil_r.
Qed.

(** The entities of a run with a collection attached. *)
Lemma insert_data_inserted (w : World) (raw_data : list string) (n : Z) (c : Collection) :
  milvus_collection (handler w) = Some c ->
  inserted (new_events w (fst (insert_data raw_data n w))) =
    [(c, {| pk_column := map str (range n (n + len raw_data));
            text_column := map strip raw_data;
            embeddings_column := map model_encode (map strip raw_data) |})] /\
  handler (fst (insert_data raw_data n w)) = handler w /\
  exists evs, trace (fst (insert_data raw_data n w)) = (trace w ++ evs)%list.
Proof.
  intros Hc. rewrite (insert_data_run w raw_data n c Hc).
  destruct (Collection_insert _ _ _) as [s1 [res|e']]; simpl;
    rewrite new_events_mk, !inserted_app, inserted_encodes; simpl; eauto.
Qed.

(** X3. The three columns [insert_data] submits are parallel: each has one
    entry per row of [raw_data] (a blank row is kept, as an empty text); and
    the primary keys of one call are pairwise distinct. *)
Theorem insert_data_columns_parallel (w : World) (raw_data : list string) (n : Z)
    (c : Collection) :
  milvus_collection (handler w) = Some c ->
  exists ents,
    inserted (new_events w (fst (insert_data raw_data n w))) = [(c, ents)] /\
    length (pk_column ents) = length raw_data /\
    length (text_column ents) = length raw_data /\
    length (embeddings_column ents) = length raw_data /\
    NoDup (pk_column ents).
Proof.
  intros Hc. destruct (insert_data_inserted w raw_data n c Hc) as (-> & _).
  eexists. split; [reflexivity|]. simpl.
  rewrite !length_map.
  assert (Hlen : length (range n (n + len raw_data)) = length raw_data).
  { rewrite range_len. now rewrite length_map, length_seq. }
  repeat split; auto.
  apply NoDup_fmap_2; [exact str_inj|apply range_NoDup].
Qed.

(** X4. Two calls in a row, the second starting where the first ended
    (at [n + len raw_data1]), submit keys that continue each other: together
    they are the keys of one call on the concatenated rows, and no key is
    used twice. *)
Theorem insert_data_batches_continue (w : World) (raw1 raw2 : list string) (n : Z)
    (c : Collection) :
  milvus_collection (handler w) = Some c ->
  let w1 := fst (insert_data raw1 n w) in
  let w2 := fst (insert_data raw2 (n + len raw1) w1) in
  exists e1 e2,
    inserted (new_events w w2) = [(c, e1); (c, e2)] /\
    (pk_column e1 ++ pk_column e2)%list = map str (range n (n + len (raw1 ++ raw2))) /\
    (text_column e1 ++ text_column e2)%list = map strip (raw1 ++ raw2) /\
    NoDup (pk_column e1 ++ pk_column e2).
Proof.
  intros Hc w1 w2. subst w1 w2.
  destruct (insert_data_inserted w raw1 n c Hc) as (H1 & Hh & evs1 & Ht1).
  set (w1 := fst (insert_data raw1 n w)) in *.
  assert (Hc1 : milvus_collection (handler w1) = Some c) by now rewrite Hh.
  destruct (insert_data_inserted w1 raw2 (n + len raw1) c Hc1) as (H2 & _ & evs2 & Ht2).
  set (w2 := fst (insert_data raw2 (n + len raw1) w1)) in *.
  rewrite (new_events_app w w1 evs1 Ht1) in H1.
  rewrite (new_events_app w1 w2 evs2 Ht2) in H2.
  assert (Ht : trace w2 = (trace w ++ evs1 ++ evs2)%list)
    by now rewrite Ht2, Ht1, <- app_assoc.
  do 2 eexists. rewrite (new_events_app w w2 _ Ht), inserted_app, H1, H2.
  split; [reflexivity|]. simpl.
  assert (Hr : (map str (range n (n + len raw1)) ++
                map str (range (n + len raw1) (n + len raw1 + len raw2)))%list =
               map str (range n (n + len (raw1 ++ raw2)))).
  { rewrite <- map_app. unfold len. now rewrite range_app, length_app. }
  rewrite Hr. split; [reflexivity|]. split; [now rewrite map_app|].
  apply NoDup_fmap_2; [exact str_inj|apply range_NoDup].
Qed.

(** X5. An empty [raw_data] is not special: the embedder is not called, but
    the insert request is still sent, with three empty columns. *)
Theorem insert_data_empty_rows (w : World) (n : Z) (c : Collection) :
  milvus_collection (handler w) = Some c ->
  encoded (new_events w (fst (insert_data [] n w))) = [] /\
  inserted (new_events w (fst (insert_data [] n w))) =
    [(c, {| pk_column := []; text_column := []; embeddings_column := [] |})].
Proof.
  intros Hc. destruct (insert_data_inserted w [] n c Hc) as (-> & _).
  split.
  - rewrite (insert_data_run w [] n c Hc).
    destruct (Collection_insert _ _ _) as [s1 [res|e']]; simpl;
      now rewrite new_events_mk.
  - unfold range, len. simpl length.
    replace (n + Z.of_nat 0 - n) with 0 by lia. reflexivity.
Qed.

(** X6. Every text [insert_data] stores is stripped: it has no white space
    at either end and [strip] leaves it as it is; a row of white space only
    is stored as the empty text. *)
Theorem insert_data_texts_stripped (w : World) (raw_data : list string) (n : Z)
    (c : Collection) :
  milvus_collection (handler w) = Some c ->
  exists ents,
    inserted (new_events w (fst (insert_data raw_data n w))) = [(c, ents)] /\
    Forall (fun t => head_space t = false /\ last_space t = false /\ strip t = t)
           (text_column ents) /\
    forall (i : nat) (line : string),
      raw_data !! i = Some line -> blank line = true ->
      text_column ents !! i = Some EmptyString.
Proof.
  intros Hc. destruct (insert_data_inserted w raw_data n c Hc) as (-> & _).
  eexists. split; [reflexivity|]. simpl. split.
  - apply List.Forall_forall. intros t [line [<- _]]%List.in_map_iff.
    destruct (strip_spec line) as (? & ? & ? & _). auto.
  - intros i line Hi Hb. rewrite list_lookup_fmap, Hi. simpl.
    destruct (strip_spec line) as (_ & _ & _ & Hs). now rewrite (Hs Hb).
Qed.

(** *** [connect] *)

(** X7. [connect] never raises: when the store refuses the connection the
    failure is logged as an error and the call returns as after a success,
    with the handler unchanged, so that the failure shows only at the next
    call to the store. *)
Theorem connect_never_raises (w : World) :
  let h := handler w in
  let w' := fst (connect w) in
  let answer := connections_connect (store w) (alias h) (host h) (port h) in
  snd (connect w) = Ok tt /\
  handler w' = h /\
  store w' = fst answer /\
  new_events w w' =
    [EvConnect (alias h) (host h) (port h);
     match snd answer with
     | Ok _ => EvLog INFO "Successfully connected to Milvus."
     | Raise e =>
         EvLog ERROR
           ("Something went wrong while trying to connect to Milvus: " ++ str_exn e)
     end].
Proof.
  unfold connect, connections_connect_, logger_info, logger_error. run.
  destruct (connections_connect _ _ _ _) as [s' [[]|e]]; simpl;
    rewrite <- app_assoc, new_events_mk; repeat split.
Qed.

(** *** [connect_to_collection] *)

(** X8. [connect_to_collection] attaches or raises: when it returns, the
    handler holds a collection handle ([milvus_collection] is not [None])
    and its other attributes are as before; when it raises, the handler is
    exactly as before (what was attached, or nothing, stays). *)
Theorem connect_to_collection_attaches_or_raises (w : World) :
  match snd (connect_to_collection w) with
  | Ok _ =>
      exists c,
        milvus_collection (handler (fst (connect_to_collection w))) = Some c /\
        attached_to c (handler w) (handler (fst (connect_to_collection w)))
  | Raise _ => handler (fst (connect_to_collection w)) = handler w
  end.
Proof.
  unfold connect_to_collection, Collection_, create_index_, logger_info, attached_to.
  run.
  destruct (collection_exists (handler w)) eqn:Hex; run.
  - destruct (Collection_init _ _ _ _) as [s' [c|e]]; simpl; [|reflexivity].
    exists c. rewrite Hex. repeat split.
  - destruct (Collection_init _ _ _ _) as [s1 [c|e]]; simpl; [|reflexivity].
    destruct (Collection_create_index _ _ _ _) as [s2 [[]|e]]; simpl; [|reflexivity].
    exists c. rewrite Hex. repeat split.
Qed.

(** X9. When the collection is created but the index request raises, the
    exception propagates and the handler stays detached from the collection
    it has just created: the store keeps the state the two requests left. *)
Theorem connect_to_collection_index_failure (w : World) (s1 s2 : Store)
    (c : Collection) (e : exn) :
  collection_exists (handler w) = false ->
  Collection_init (store w) (collection_name (handler w)) (schema (handler w))
    (Some "Strong") = (s1, Ok c) ->
  Collection_create_index s1 c "embeddings"
    {| index_type := "IVF_FLAT"; index_metric_type := "L2"; nlist := 128 |} =
    (s2, Raise e) ->
  snd (connect_to_collection w) = Raise e /\
  store (fst (connect_to_collection w)) = s2 /\
  handler (fst (connect_to_collection w)) = handler w.
Proof.
  intros Hex Hinit Hidx.
  unfold connect_to_collection, Collection_, create_index_, logger_info. run.
  rewrite Hex. run. rewrite Hinit. simpl. rewrite Hidx. simpl. repeat split.
Qed.

(** *** [drop_db] and what follows *)

(** X10. [drop_db] does not detach: after it, successful or not, the handler
    still holds its collection handle, and a following [insert_data] does
    not raise "Collection is empty." but submits its entities through the
    handle of the dropped collection. *)
Theorem drop_db_keeps_handle (w : World) (raw_data : list string) (n : Z)
    (c : Collection) :
  milvus_collection (handler w) = Some c ->
  let wd := fst (drop_db w) in
  milvus_collection (handler wd) = Some c /\
  collection_exists (handler wd) = collection_exists (handler w) /\
  exists ents,
    inserted (new_events wd (fst (insert_data raw_data n wd))) = [(c, ents)] /\
    text_column ents = map strip raw_data.
Proof.
  intros Hc wd.
  assert (Hh : handler wd = handler w).
  { subst wd. unfold drop_db, drop_collection_, logger_info, logger_error. run.
    now destruct (utility_drop_collection _ _) as [s' [[]|e]]. }
  assert (Hc' : milvus_collection (handler wd) = Some c) by now rewrite Hh.
  rewrite Hh. repeat split; [assumption|].
  destruct (insert_data_inserted wd raw_data n c Hc') as (-> & _).
  eexists. split; reflexivity.
Qed.

(** *** [search] *)

Lemma log_hits_run (result : list (list Hit)) :
  forall (hits : option (list Hit)) (w : World),
  log_hits result hits w =
    (mkWorld (handler w) (store w) (clock w)
       (trace w ++ map hit_event (concat result)),
     Ok (match last result with Some g => Some g | None => hits end)).
Proof.
  induction result as [|g rest IH]; intros hits [h s c t]; simpl.
  - unfold ret. simpl. now rewrite app_nil_r.
  - unfold bind at 1. rewrite for_logger_info. simpl. rewrite IH. simpl.
    rewrite <- app_assoc, map_app, last_cons. now destruct (last rest).
Qed.

Lemma logged_hit_lines (hits : list Hit) :
  logged (map hit_event hits) =
    map hit_line hits.
Proof.
  induction hits as [|hit hits IH]; [reflexivity|].
  exact (f_equal (cons (hit_line hit)) IH).
Qed.

Lemma clock_reads_hit_lines (hits : list Hit) :
  clock_reads (map hit_event hits) = 0%nat.
Proof. induction hits as [|hit hits IH]; simpl; [reflexivity|]. exact IH. Qed.

Lemma searched_hit_lines (hits : list Hit) :
  searched (map hit_event hits) = [].
Proof. induction hits as [|hit hits IH]; simpl; [reflexivity|]. exact IH. Qed.

(** The whole run of [search]. *)
Lemma search_run (w : World) (text : string) (limit : Z) (output_fields : list string) :
  let t0 := snd (time_time (clock w)) in
  let c1 := fst (time_time (clock w)) in
  let prm := {| metric_type := "L2"; nprobe := 10 |} in
  search text limit output_fields w =
  match milvus_collection (handler w) with
  | None =>
      (mkWorld (handler w) (store w) c1
         (trace w ++ [EvEncode text; EvTime; EvLog ERROR "Collection is empty."]),
       Raise (Exception "Collection is empty."))
  | Some c =>
      match Collection_search (store w) c [model_encode text] "embeddings" prm limit
              output_fields with
      | (s', Raise e) =>
          (mkWorld (handler w) s' c1
             (trace w ++ [EvEncode text; EvTime;
                          EvSearch c [model_encode text] "embeddings" prm limit output_fields]),
           Raise e)
      | (s', Ok groups) =>
          (mkWorld (handler w) s' (fst (time_time c1))
             (trace w ++
              [EvEncode text; EvTime;
               EvSearch c [model_encode text] "embeddings" prm limit output_fields;
               EvTime] ++
              map hit_event (concat groups) ++
              [EvLog INFO ("Search latency: " ++ str_elapsed t0 (snd (time_time c1)))]),
           match last groups with
           | Some hits => Ok hits
           | None => Raise (UnboundLocalError "hits")
           end)
      end
  end.
Proof.
  unfold search, encode_, time_, search_, logger_info, logger_error. run.
  destruct (time_time (clock w)) as [c1 t0]. simpl.
  destruct (milvus_collection (handler w)) as [c|]; run.
  - destruct (Collection_search _ _ _ _ _ _ _) as [s' [groups|e]]; simpl.
    + destruct (time_time c1) as [c2 t1]. simpl.
      rewrite log_hits_run. simpl.
      destruct (last groups); simpl; rewrite <- !app_assoc; reflexivity.
    + rewrite <- !app_assoc. reflexivity.
  - rewrite <- !app_assoc. reflexivity.
Qed.

(** X11. With no collection attached, [search] raises "Collection is
    empty.", after it has called the embedder and read the clock; it sends
    nothing to the store and leaves the handler and the store as they
    were. *)
Theorem search_detached_raises (w : World) (text : string) (limit : Z)
    (output_fields : list string) :
  milvus_collection (handler w) = None ->
  let w' := fst (search text limit output_fields w) in
  snd (search text limit output_fields w) = Raise (Exception "Collection is empty.") /\
  new_events w w' = [EvEncode text; EvTime; EvLog ERROR "Collection is empty."] /\
  store_requests (new_events w w') = [] /\
  handler w' = handler w /\ store w' = store w.
Proof.
  intros Hc w'. subst w'. rewrite search_run, Hc. simpl.
  rewrite new_events_mk. repeat split.
Qed.

(** X12. When the store raises on the search request, [search] raises the
    same exception: the clock is not read again and nothing is logged, not
    even the latency; the handler is unchanged. *)
Theorem search_store_failure (w : World) (text : string) (limit : Z)
    (output_fields : list string) (c : Collection) (s' : Store) (e : exn) :
  milvus_collection (handler w) = Some c ->
  Collection_search (store w) c [model_encode text] "embeddings"
    {| metric_type := "L2"; nprobe := 10 |} limit output_fields = (s', Raise e) ->
  let w' := fst (search text limit output_fields w) in
  snd (search text limit output_fields w) = Raise e /\
  logged (new_events w w') = [] /\
  clock_reads (new_events w w') = 1%nat /\
  handler w' = handler w /\ store w' = s'.
Proof.
  intros Hc Hs w'. subst w'. rewrite search_run, Hc, Hs. simpl.
  rewrite new_events_mk. repeat split.
Qed.

(** X13. When the store answers, [search] logs one line per hit of every
    group, in the order of the answer, then the latency between the clock
    reading taken before the request and the one taken after it; it logs
    them even when the answer has no group and the call then raises.  The
    handler is unchanged. *)
Theorem search_logs_every_hit (w : World) (text : string) (limit : Z)
    (output_fields : list string) (c : Collection) (s' : Store)
    (groups : list (list Hit)) :
  milvus_collection (handler w) = Some c ->
  Collection_search (store w) c [model_encode text] "embeddings"
    {| metric_type := "L2"; nprobe := 10 |} limit output_fields = (s', Ok groups) ->
  let w' := fst (search text limit output_fields w) in
  let t0 := snd (time_time (clock w)) in
  let t1 := snd (time_time (fst (time_time (clock w)))) in
  logged (new_events w w') =
    (map hit_line (concat groups) ++
     [(INFO, ("Search latency: " ++ str_elapsed t0 t1)%string)])%list /\
  clock_reads (new_events w w') = 2%nat /\
  handler w' = handler w /\ store w' = s'.
Proof.
  intros Hc Hs w'. subst w'. rewrite search_run, Hc, Hs. simpl.
  rewrite new_events_mk. repeat split.
  - match goal with
    | |- _ = ?rhs =>
        change (logged (map hit_event (concat groups) ++
                        [EvLog INFO ("Search latency: " ++
                           str_elapsed (snd (time_time (clock w)))
                             (snd (time_time (fst (time_time (clock w))))))]) = rhs)
    end.
    rewrite logged_app, logged_hit_lines. reflexivity.
  - unfold clock_reads. simpl. rewrite List.filter_app, length_app.
    fold (clock_reads (map hit_event (concat groups))).
    rewrite clock_reads_hit_lines. reflexivity.
Qed.

(** X14. [search] embeds the query as it is given, white space included,
    where [insert_data] embeds the stripped row: for the same text the store
    is searched with [encode text] and was given [encode (strip text)]. *)
Theorem search_does_not_strip (w : World) (text : string) (n limit : Z)
    (output_fields : list string) (c : Collection) :
  milvus_collection (handler w) = Some c ->
  searched (new_events w (fst (search text limit output_fields w))) =
    [[model_encode text]] /\
  exists ents,
    inserted (new_events w (fst (insert_data [text] n w))) = [(c, ents)] /\
    embeddings_column ents = [model_encode (strip text)].
Proof.
  intros Hc. split.
  - rewrite search_run, Hc.
    destruct (Collection_search _ _ _ _ _ _ _) as [s' [groups|e]]; simpl;
      rewrite new_events_mk; [|reflexivity].
    match goal with
    | |- searched (_ :: _ :: _ :: _ :: _ ++ ?last) = _ =>
        change ([model_encode text] :: searched (map hit_event (concat groups) ++ last) =
                [[model_encode text]])
    end.
    rewrite searched_app, searched_hit_lines. reflexivity.
  - destruct (insert_data_inserted w [text] n c Hc) as (-> & _).
    eexists. split; reflexivity.
Qed.

(** *** [define_schema] *)

Lemma eq_str_pk_not_embeddings (name : yaml) :
  eq_str name "pk" = true -> eq_str name "embeddings" = false.
Proof.
  destruct name as [| |nm]; simpl; try reflexivity.
  intros H. apply String.eqb_eq in H. now subst.
Qed.

(** One iteration, in full: the [KeyError] of a defective entry, with
    nothing done; or the descriptor of the entry, handed to [FieldSchema]. *)
Lemma field_schema_cases (entry : gmap string yaml) (w : World) :
  match defect entry with
  | Some e => field_schema entry w = (w, Raise e)
  | None =>
      exists f evs,
        describes entry f /\ field_schemas evs = [f] /\
        store_requests evs = [] /\ encoded evs = [] /\
        dimension_queries evs = (if named "embeddings" entry then 1 else 0)%nat /\
        field_schema entry w =
          (mkWorld (handler w) (store w) (clock w) (trace w ++ evs),
           match FieldSchema_check f with Ok _ => Ok f | Raise e => Raise e end)
  end.
Proof.
  destruct w as [h st ck t].
  unfold defect, field_schema, getitem, FieldSchema_, get_sentence_embedding_dimension_,
    DataType_, describes, named.
  run.
  destruct (entry !! "name") as [name|] eqn:Hn; run; [|reflexivity].
  destruct (entry !! "dtype") as [[|z|s]|] eqn:Hd; run;
    try (destruct (eq_str name "pk"); [|destruct (eq_str name "embeddings")]; reflexivity).
  destruct (DataType_getitem s) as [dt|] eqn:Hs; run;
    [|destruct (eq_str name "pk"); [|destruct (eq_str name "embeddings")]; reflexivity].
  destruct (eq_str name "pk") eqn:Hpk.
  - rewrite (eq_str_pk_not_embeddings name Hpk).
    destruct (entry !! "max_length") as [ml|] eqn:Hml; run; [|reflexivity].
    match goal with
    | |- context [FieldSchema_check ?f] => exists f, [EvFieldSchema f]
    end.
    simpl. rewrite Hpk, (eq_str_pk_not_embeddings name Hpk).
    repeat split; eauto.
    destruct (FieldSchema_check _) as [[]|e]; reflexivity.
  - destruct (eq_str name "embeddings") eqn:Hemb.
    + match goal with
      | |- context [FieldSchema_check ?f] => exists f, [EvGetDimension; EvFieldSchema f]
      end.
      simpl. rewrite Hpk, Hemb, <- app_assoc. simpl.
      repeat split; eauto.
      destruct (FieldSchema_check _) as [[]|e]; reflexivity.
    + destruct (entry !! "max_length") as [ml|] eqn:Hml; run; [|reflexivity].
      match goal with
      | |- context [FieldSchema_check ?f] => exists f, [EvFieldSchema f]
      end.
      simpl. rewrite Hpk, Hemb.
      repeat split; eauto.
      destruct (FieldSchema_check _) as [[]|e]; reflexivity.
Qed.

Lemma defect_None_well_formed (entry : gmap string yaml) :
  defect entry = None <-> well_formed entry.
Proof.
  unfold defect, well_formed, named. split.
  - destruct (entry !! "name") as [name|]; [|discriminate].
    destruct (entry !! "dtype") as [[|z|s]|]; try discriminate.
    destruct (DataType_getitem s) as [dt|] eqn:Hs; [|discriminate].
    intros H. split; [eauto|]. split; [eauto|].
    intros Hemb. rewrite Hemb in H.
    destruct (entry !! "max_length"); [eauto|discriminate].
  - intros ([name ->] & (s & d & -> & ->) & Hml).
    destruct (eq_str name "embeddings"); [reflexivity|].
    now destruct (Hml eq_refl) as [ml ->].
Qed.

(** The loop, in full, on any list of entries. *)
Lemma define_fields_trace (entries : list (gmap string yaml)) :
  forall (acc : list (FieldSchema DataType)) (w : World),
  exists evs,
    fst (define_fields entries acc w) =
      mkWorld (handler w) (store w) (clock w) (trace w ++ evs) /\
    store_requests evs = [] /\ encoded evs = [] /\
    forall fields, snd (define_fields entries acc w) = Ok fields ->
      fields = (acc ++ field_schemas evs)%list /\
      Forall well_formed entries /\
      Forall (fun f => FieldSchema_check f = Ok tt) (field_schemas evs) /\
      dimension_queries evs = length (List.filter (named "embeddings") entries).
Proof.
  induction entries as [|entry rest IH]; intros acc w; simpl.
  - exists []. unfold ret. simpl. rewrite !app_nil_r. destruct w.
    split; [reflexivity|]. split; [reflexivity|]. split; [reflexivity|].
    intros fields [= <-]. repeat split; constructor.
  - unfold bind at 1 2.
    pose proof (field_schema_cases entry w) as Hcase.
    destruct (defect entry) as [e|] eqn:Hdef.
    + rewrite Hcase. simpl. exists []. rewrite app_nil_r. destruct w.
      split; [reflexivity|]. split; [reflexivity|]. split; [reflexivity|].
      intros fields [=].
    + destruct Hcase as (f & evs1 & Hdesc & Hfs & Hreq & Henc & Hdim & ->).
      destruct (FieldSchema_check f) as [[]|e] eqn:Hchk.
      * destruct (IH (acc ++ [f])%list
                    (mkWorld (handler w) (store w) (clock w) (trace w ++ evs1)))
          as (evs2 & Hw & Hreq2 & Henc2 & Hok).
        exists (evs1 ++ evs2)%list. rewrite Hw. simpl. rewrite <- app_assoc.
        split; [reflexivity|].
        rewrite store_requests_app, encoded_app, Hreq, Henc, Hreq2, Henc2.
        split; [reflexivity|]. split; [reflexivity|].
        intros fields H. apply Hok in H as (-> & Hwf & Hall & Hd).
        split; [|split; [|split]].
        -- now rewrite field_schemas_app, Hfs, <- app_assoc.
        -- constructor; [now apply defect_None_well_formed|exact Hwf].
        -- rewrite field_schemas_app, Hfs. simpl. now constructor.
        -- rewrite dimension_queries_app, Hdim, Hd.
           now destruct (named "embeddings" entry).
      * simpl. exists evs1.
        split; [reflexivity|]. split; [assumption|]. split; [assumption|].
        intros fields [=].
Qed.

(** the proper part of [define_schema] *)
Lemma define_schema_run (w : World) :
  exists evs,
    store_requests evs = [] /\ encoded evs = [] /\
    match snd (define_schema w) with
    | Raise e =>
        fst (define_schema w) = mkWorld (handler w) (store w) (clock w) (trace w ++ evs)
    | Ok _ =>
        let s := mkCollectionSchema DataType (field_schemas evs) (description (handler w)) in
        fst (define_schema w) =
          mkWorld (set_schema s (handler w)) (store w) (clock w)
                  (trace w ++ evs ++ [EvCollectionSchema s]) /\
        CollectionSchema_check s = Ok tt /\
        Forall (fun f => FieldSchema_check f = Ok tt) (field_schemas evs) /\
        Forall well_formed (milvus_fields (config (handler w))) /\
        dimension_queries evs =
          length (List.filter (named "embeddings") (milvus_fields (config (handler w))))
    end.
Proof.
  unfold define_schema, CollectionSchema_. run.
  destruct (define_fields_trace (milvus_fields (config (handler w))) [] w)
    as (evs & Hw & Hreq & Henc & Hok).
  destruct (define_fields _ [] w) as [w1 [fields|e]]; simpl in *; subst w1; simpl.
  - destruct (Hok fields eq_refl) as (-> & Hwf & Hall & Hd). simpl.
    destruct (CollectionSchema_check _) as [[]|e] eqn:Hchk; simpl.
    + exists evs. rewrite <- app_assoc. repeat split; auto.
    + exists (evs ++ [EvCollectionSchema
                {| cs_fields := field_schemas evs;
                   cs_description := description (handler w) |}])%list.
      rewrite store_requests_app, encoded_app, Hreq, Henc, <- app_assoc.
      repeat split.
  - exists evs. repeat split; auto.
Qed.

Lemma define_fields_defect (pre post : list (gmap string yaml))
    (entry : gmap string yaml) (e : exn) :
  Forall well_formed pre ->
  (forall entry' f, In entry' pre -> describes entry' f -> FieldSchema_check f = Ok tt) ->
  defect entry = Some e ->
  forall (acc : list (FieldSchema DataType)) (w : World),
  exists evs,
    define_fields (pre ++ entry :: post) acc w =
      (mkWorld (handler w) (store w) (clock w) (trace w ++ evs), Raise e) /\
    length (field_schemas evs) = length pre.
Proof.
  intros Hpre Hchk Hdef. induction Hpre as [|x pre Hx _ IH]; intros acc w; simpl.
  - unfold bind. pose proof (field_schema_cases entry w) as Hcase.
    rewrite Hdef in Hcase. rewrite Hcase. exists []. rewrite app_nil_r.
    destruct w. split; reflexivity.
  - unfold bind at 1. pose proof (field_schema_cases x w) as Hcase.
    apply defect_None_well_formed in Hx. rewrite Hx in Hcase.
    destruct Hcase as (f & evs1 & Hdesc & Hfs & _ & _ & _ & ->).
    rewrite (Hchk x f (or_introl eq_refl) Hdesc).
    destruct (IH (fun entry' f' Hin => Hchk entry' f' (or_intror Hin))
                (acc ++ [f])%list
                (mkWorld (handler w) (store w) (clock w) (trace w ++ evs1)))
      as (evs2 & -> & Hlen).
    exists (evs1 ++ evs2)%list. simpl. rewrite <- app_assoc. split; [reflexivity|].
    rewrite field_schemas_app, Hfs. simpl. now rewrite Hlen.
Qed.

(** X15. [define_schema] works on the configuration and the embedder alone:
    on every path it sends nothing to the store, leaves the store as it
    was and never asks for an embedding; when it completes it has asked the
    embedder for its dimension once per entry named "embeddings". *)
Theorem define_schema_leaves_store_alone (w : World) :
  let w' := fst (define_schema w) in
  store w' = store w /\
  store_requests (new_events w w') = [] /\
  encoded (new_events w w') = [] /\
  (snd (define_schema w) = Ok tt ->
   dimension_queries (new_events w w') =
     length (List.filter (named "embeddings") (milvus_fields (config (handler w))))).
Proof.
  intros w'. subst w'. destruct (define_schema_run w) as (evs & Hreq & Henc & Hrun).
  destruct (snd (define_schema w)) as [[]|e].
  - destruct Hrun as (-> & _ & _ & _ & Hd). simpl. rewrite new_events_mk.
    rewrite store_requests_app, encoded_app, dimension_queries_app, Hreq, Henc, Hd.
    simpl. repeat split. intros _. unfold dimension_queries. simpl. lia.
  - rewrite Hrun. simpl. rewrite new_events_mk. repeat split; auto. discriminate.
Qed.

(** X16. When [define_schema] raises, for a missing key, an unknown type
    name or a descriptor that pymilvus refuses, the handler is left exactly
    as it was: the schema it had, if any, stays. *)
Theorem define_schema_failure_keeps_schema (w : World) (e : exn) :
  snd (define_schema w) = Raise e ->
  handler (fst (define_schema w)) = handler w.
Proof.
  intros He. destruct (define_schema_run w) as (evs & _ & _ & Hrun).
  rewrite He in Hrun. now rewrite Hrun.
Qed.

(** X17. [define_schema] installs a schema only if every entry of the
    configuration gave the keys read for it, pymilvus accepted every field
    descriptor and accepted the schema; each field of the schema was handed
    to [FieldSchema] once, in the schema's order. *)
Theorem define_schema_completes_only_if_accepted (w : World) :
  snd (define_schema w) = Ok tt ->
  exists s,
    schema (handler (fst (define_schema w))) = Some s /\
    Forall well_formed (milvus_fields (config (handler w))) /\
    Forall (fun f => FieldSchema_check f = Ok tt) (cs_fields s) /\
    CollectionSchema_check s = Ok tt /\
    field_schemas (new_events w (fst (define_schema w))) = cs_fields s.
Proof.
  intros Hok. destruct (define_schema_run w) as (evs & _ & _ & Hrun).
  rewrite Hok in Hrun. destruct Hrun as (-> & Hchk & Hall & Hwf & _). simpl.
  eexists. split; [reflexivity|]. rewrite new_events_mk, field_schemas_app. simpl.
  rewrite app_nil_r. auto.
Qed.

(** X18. [define_schema] stops at the first defective entry: when the
    entries before it are well formed and pymilvus accepts the descriptors
    derived from them, it raises the [KeyError] of that entry (the missing
    key "name", "dtype" or "max_length", or the type name that [DataType]
    does not have), having built the descriptors of the entries before it
    only, and leaves the handler as it was. *)
Theorem define_schema_stops_at_first_defect (w : World)
    (pre post : list (gmap string yaml)) (entry : gmap string yaml) (e : exn) :
  milvus_fields (config (handler w)) = (pre ++ entry :: post)%list ->
  Forall well_formed pre ->
  (forall entry' f, In entry' pre -> describes entry' f -> FieldSchema_check f = Ok tt) ->
  defect entry = Some e ->
  snd (define_schema w) = Raise e /\
  handler (fst (define_schema w)) = handler w /\
  length (field_schemas (new_events w (fst (define_schema w)))) = length pre.
Proof.
  intros Hfields Hpre Hchk Hdef. unfold define_schema. run. rewrite Hfields.
  destruct (define_fields_defect pre post entry e Hpre Hchk Hdef [] w) as (evs & -> & Hlen).
  simpl. rewrite new_events_mk. auto.
Qed.

(** *** [__init__] and the entry sequence *)

(** X19. A handler fresh from [__init__] is attached to nothing, with the
    existence flag unset and no schema: [insert_data] and [search] both
    raise "Collection is empty." and send nothing to the store; and
    [connect_to_collection], called before the check and the schema, asks
    the store to create the collection, with no schema. *)
Theorem fresh_handler_is_detached (cfg : Config) (s : Store) (ck : Clock)
    (t : list Event) (raw_data : list string) (n limit : Z) (text : string)
    (output_fields : list string) :
  let w := mkWorld (init cfg) s ck t in
  snd (insert_data raw_data n w) = Raise (Exception "Collection is empty.") /\
  store_requests (new_events w (fst (insert_data raw_data n w))) = [] /\
  snd (search text limit output_fields w) = Raise (Exception "Collection is empty.") /\
  store_requests (new_events w (fst (search text limit output_fields w))) = [] /\
  head (new_events w (fst (connect_to_collection w))) =
    Some (EvCollection (milvus_collection_name cfg) None (Some "Strong")).
Proof.
  intros w. subst w.
  rewrite (insert_data_detached (mkWorld (init cfg) s ck t) raw_data n eq_refl),
    search_run. simpl.
  rewrite !new_events_mk, store_requests_app, store_requests_encodes. simpl.
  repeat split.
  unfold connect_to_collection, Collection_, create_index_, logger_info. run.
  destruct (Collection_init _ _ _ _) as [s1 [c|e]]; simpl;
    [destruct (Collection_create_index _ _ _ _) as [s2 [[]|e]]; simpl|];
    rewrite <- ?app_assoc, new_events_mk; reflexivity.
Qed.

Lemma connect_run (w : World) :
  exists s' evs,
    connect w = (mkWorld (handler w) s' (clock w) (trace w ++ evs), Ok tt).
Proof.
  unfold connect, connections_connect_, logger_info, logger_error. run.
  destruct (connections_connect _ _ _ _) as [s' [[]|e]]; simpl;
    rewrite <- app_assoc; eauto.
Qed.

Lemma check_collection_existence_ok (w w' : World) :
  check_collection_existence w = (w', Ok tt) ->
  exists b, handler w' = set_collection_exists b (handler w).
Proof.
  unfold check_collection_existence, has_collection_. run.
  destruct (utility_has_collection _ _) as [b|e]; [|discriminate].
  intros [= <-]. eauto.
Qed.

Lemma define_schema_ok (w w' : World) :
  define_schema w = (w', Ok tt) ->
  exists s,
    handler w' = set_schema s (handler w) /\
    Forall2 describes (milvus_fields (config (handler w))) (cs_fields s).
Proof.
  unfold define_schema. run.
  destruct (define_fields _ [] w) as [w1 [fields|e]] eqn:Hf; [|discriminate].
  apply define_fields_ok in Hf as (Hh & Hs & fs & -> & Hall). simpl in *.
  unfold CollectionSchema_. run.
  destruct (CollectionSchema_check _) as [[]|e]; [|discriminate].
  intros [= <-]. simpl. rewrite Hh. eauto.
Qed.

Lemma connect_to_collection_ok (w w' : World) :
  connect_to_collection w = (w', Ok tt) ->
  exists c, handler w' = set_milvus_collection c (handler w).
Proof.
  unfold connect_to_collection, Collection_, create_index_, logger_info. run.
  destruct (collection_exists (handler w)); run.
  - destruct (Collection_init _ _ _ _) as [s' [c|e]]; simpl; [|discriminate].
    intros [= <-]. eauto.
  - destruct (Collection_init _ _ _ _) as [s1 [c|e]]; simpl; [|discriminate].
    destruct (Collection_create_index _ _ _ _) as [s2 [[]|e]]; simpl; [|discriminate].
    intros [= <-]. eauto.
Qed.

(** X20. When the start of the entry sequence (connect, check, define,
    attach) returns, the handler is attached to a collection and holds the
    schema derived from its configuration, whatever the store answered on
    the way (a refused connection included): the tests
    [milvus_collection is not None] that follow in [__main__] always
    pass. *)
Theorem setup_attaches (w w' : World) :
  setup w = (w', Ok tt) ->
  exists c s,
    milvus_collection (handler w') = Some c /\
    schema (handler w') = Some s /\
    Forall2 describes (milvus_fields (config (handler w))) (cs_fields s) /\
    config (handler w') = config (handler w).
Proof.
  unfold setup, logger_info. run.
  match goal with
  | |- context [connect ?w0] => destruct (connect_run w0) as (s1 & evs1 & ->)
  end. simpl.
  match goal with
  | |- context [check_collection_existence ?w0] =>
      destruct (check_collection_existence w0) as [w2 [[]|e]] eqn:Hchk; [|discriminate]
  end.
  apply check_collection_existence_ok in Hchk as [b Hh2]. simpl in *.
  match goal with
  | |- context [define_schema ?w0] =>
      destruct (define_schema w0) as [w3 [[]|e]] eqn:Hdef; [|discriminate]
  end.
  apply define_schema_ok in Hdef as (sch & Hh3 & Hdesc). simpl in *.
  match goal with
  | |- context [connect_to_collection ?w0] =>
      destruct (connect_to_collection w0) as [w4 [[]|e]] eqn:Hcon; [|discriminate]
  end.
  apply connect_to_collection_ok in Hcon as (c & Hh4). simpl in *.
  intros [= <-]. exists c, sch. rewrite Hh4, Hh3, Hh2. simpl.
  rewrite Hh2 in Hdesc. simpl in Hdesc. auto.
Qed.
End MoreProofs.

(** ** The further theorems at work on the demonstration instance *)

Section MoreScenarios.
Import Demo.
#[local] Existing Instance runtime.
#[local] Existing Instance demo_embedder.
#[local] Existing Instance demo_pymilvus.

Lemma insert_data_flushes_after_insert_witness :
  handler (fst (insert_data ["a"; " bb "] 0 w_attached)) = handler w_attached /\
  exists ents,
    inserted (new_events w_attached (fst (insert_data ["a"; " bb "] 0 w_attached))) =
      [("sentences", ents)] /\
    match Collection_insert (store w_attached) "sentences" ents with
    | (s1, Raise e) =>
        snd (insert_data ["a"; " bb "] 0 w_attached) = Raise e /\
        store_requests (new_events w_attached (fst (insert_data ["a"; " bb "] 0 w_attached))) =
          [EvInsert "sentences" ents] /\
        store (fst (insert_data ["a"; " bb "] 0 w_attached)) = s1
    | (s1, Ok res) =>
        store_requests (new_events w_attached (fst (insert_data ["a"; " bb "] 0 w_attached))) =
          [EvInsert "sentences" ents; EvFlush "sentences"] /\
        store (fst (insert_data ["a"; " bb "] 0 w_attached)) =
          fst (Collection_flush s1 "sentences") /\
        snd (insert_data ["a"; " bb "] 0 w_attached) =
          match snd (Collection_flush s1 "sentences") with
          | Ok _ => Ok res
          | Raise e => Raise e
          end
    end.
Proof.
  apply (insert_data_flushes_after_insert w_attached ["a"; " bb "] 0 "sentences").
  vm_compute. reflexivity.
Defined.

Lemma insert_data_columns_parallel_witness :
  exists ents,
    inserted (new_events w_attached (fst (insert_data ["a"; "  "; "c"] 0 w_attached))) =
      [("sentences", ents)] /\
    length (pk_column ents) = 3%nat /\
    length (text_column ents) = 3%nat /\
    length (embeddings_column ents) = 3%nat /\
    NoDup (pk_column ents).
Proof.
  apply (insert_data_columns_parallel w_attached ["a"; "  "; "c"] 0 "sentences").
  vm_compute. reflexivity.
Defined.

(** Scenarios B and C in a row: two rows from 0, then one row from 2. *)
Lemma insert_data_batches_continue_witness :
  exists e1 e2,
    inserted (new_events w_attached
                (fst (insert_data ["c"] 2 (fst (insert_data ["a"; "b"] 0 w_attached))))) =
      [("sentences", e1); ("sentences", e2)] /\
    (pk_column e1 ++ pk_column e2)%list = ["0"; "1"; "2"] /\
    (text_column e1 ++ text_column e2)%list = ["a"; "b"; "c"] /\
    NoDup (pk_column e1 ++ pk_column e2).
Proof.
  apply (insert_data_batches_continue w_attached ["a"; "b"] ["c"] 0 "sentences").
  vm_compute. reflexivity.
Defined.

Lemma insert_data_empty_rows_witness :
  encoded (new_events w_attached (fst (insert_data [] 0 w_attached))) = [] /\
  inserted (new_events w_attached (fst (insert_data [] 0 w_attached))) =
    [("sentences", {| pk_column := []; text_column := []; embeddings_column := [] |})].
Proof.
  apply (insert_data_empty_rows w_attached 0 "sentences").
  vm_compute. reflexivity.
Defined.

Lemma insert_data_texts_stripped_witness :
  exists ents,
    inserted (new_events w_attached (fst (insert_data [" a b "; "  "] 0 w_attached))) =
      [("sentences", ents)] /\
    Forall (fun t => head_space t = false /\ last_space t = false /\ strip t = t)
           (text_column ents) /\
    forall (i : nat) (line : string),
      [" a b "; "  "] !! i = Some line -> blank line = true ->
      text_column ents !! i = Some EmptyString.
Proof.
  apply (insert_data_texts_stripped w_attached [" a b "; "  "] 0 "sentences").
  vm_compute. reflexivity.
Defined.

Lemma drop_db_keeps_handle_witness :
  milvus_collection (handler (fst (drop_db w_seeded))) = Some "sentences" /\
  collection_exists (handler (fst (drop_db w_seeded))) =
    collection_exists (handler w_seeded) /\
  exists ents,
    inserted (new_events (fst (drop_db w_seeded))
                (fst (insert_data ["c"] 2 (fst (drop_db w_seeded))))) =
      [("sentences", ents)] /\
    text_column ents = ["c"].
Proof.
  apply (drop_db_keeps_handle w_seeded ["c"] 2 "sentences").
  vm_compute. reflexivity.
Defined.

Lemma search_detached_raises_witness :
  snd (search "a query" 3 ["pk"; "sentence"] w0) = Raise (Exception "Collection is empty.") /\
  new_events w0 (fst (search "a query" 3 ["pk"; "sentence"] w0)) =
    [EvEncode "a query"; EvTime; EvLog ERROR "Collection is empty."] /\
  store_requests (new_events w0 (fst (search "a query" 3 ["pk"; "sentence"] w0))) = [] /\
  handler (fst (search "a query" 3 ["pk"; "sentence"] w0)) = handler w0 /\
  store (fst (search "a query" 3 ["pk"; "sentence"] w0)) = store w0.
Proof.
  apply (search_detached_raises w0 "a query" 3 ["pk"; "sentence"]).
  reflexivity.
Defined.

(** the demonstration store refuses a limit of 0 *)
Lemma search_store_failure_witness :
  snd (search "ccc" 0 ["pk"] w_seeded) = Raise (MilvusException "invalid limit") /\
  logged (new_events w_seeded (fst (search "ccc" 0 ["pk"] w_seeded))) = [] /\
  clock_reads (new_events w_seeded (fst (search "ccc" 0 ["pk"] w_seeded))) = 1%nat /\
  handler (fst (search "ccc" 0 ["pk"] w_seeded)) = handler w_seeded /\
  store (fst (search "ccc" 0 ["pk"] w_seeded)) = store w_seeded.
Proof.
  apply (search_store_failure w_seeded "ccc" 0 ["pk"] "sentences" (store w_seeded)
           (MilvusException "invalid limit")).
  - vm_compute. reflexivity.
  - vm_compute. reflexivity.
Defined.

Lemma search_logs_every_hit_witness :
  logged (new_events w_seeded (fst (search "ccc" 3 ["pk"; "sentence"] w_seeded))) =
    [(INFO, "hit: (1, 2), id: 1"); (INFO, "hit: (0, 8), id: 0");
     (INFO, "Search latency: 1")] /\
  clock_reads (new_events w_seeded (fst (search "ccc" 3 ["pk"; "sentence"] w_seeded))) = 2%nat /\
  handler (fst (search "ccc" 3 ["pk"; "sentence"] w_seeded)) = handler w_seeded /\
  store (fst (search "ccc" 3 ["pk"; "sentence"] w_seeded)) = store w_seeded.
Proof.
  apply (search_logs_every_hit w_seeded "ccc" 3 ["pk"; "sentence"] "sentences"
           (store w_seeded) [[("1", 2); ("0", 8)]]).
  - vm_compute. reflexivity.
  - vm_compute. reflexivity.
Defined.

Lemma search_does_not_strip_witness :
  searched (new_events w_attached (fst (search " ab " 3 ["pk"] w_attached))) =
    [[[4; 4]]] /\
  exists ents,
    inserted (new_events w_attached (fst (insert_data [" ab "] 0 w_attached))) =
      [("sentences", ents)] /\
    embeddings_column ents = [[2; 2]].
Proof.
  apply (search_does_not_strip w_attached " ab " 0 3 ["pk"] "sentences").
  vm_compute. reflexivity.
Defined.

Lemma define_schema_failure_keeps_schema_witness :
  handler (fst (define_schema w_bad_entry)) = handler w_bad_entry.
Proof.
  apply (define_schema_failure_keeps_schema w_bad_entry (KeyError (YStr "dtype"))).
  vm_compute. reflexivity.
Defined.

Lemma define_schema_stops_at_first_defect_witness :
  snd (define_schema w_bad_entry) = Raise (KeyError (YStr "dtype")) /\
  handler (fst (define_schema w_bad_entry)) = handler w_bad_entry /\
  length (field_schemas (new_events w_bad_entry (fst (define_schema w_bad_entry)))) = 1%nat.
Proof.
  apply (define_schema_stops_at_first_defect w_bad_entry
           [field "pk" "VARCHAR" (YInt 36)]
           [field "embeddings" "FLOAT_VECTOR" YNull]
           entry_without_dtype (KeyError (YStr "dtype"))).
  - reflexivity.
  - repeat constructor; vm_compute; eauto; discriminate.
  - intros entry' f _ _. reflexivity.
  - vm_compute. reflexivity.
Defined.

End MoreScenarios.

Section MoreScenarioSetup.
#[local] Existing Instance Demo.runtime.
#[local] Existing Instance demo_embedder.
#[local] Existing Instance demo_pymilvus.

Lemma setup_attaches_witness :
  exists c s,
    milvus_collection (handler w_attached) = Some c /\
    schema (handler w_attached) = Some s /\
    Forall2 describes (milvus_fields (config (handler w0))) (cs_fields s) /\
    config (handler w_attached) = config (handler w0).
Proof.
  apply (setup_attaches w0 w_attached).
  vm_compute. reflexivity.
Defined.
End MoreScenarioSetup.

Section MoreScenarioA.
Import Demo.
#[local] Existing Instance runtime.
#[local] Existing Instance embedder384.
#[local] Existing Instance pymilvus384.

Lemma define_schema_leaves_store_alone_witness :
  dimension_queries (new_events w384 (fst (define_schema w384))) = 1%nat.
Proof.
  apply (proj2 (proj2 (proj2 (define_schema_leaves_store_alone w384)))).
  vm_compute. reflexivity.
Defined.

Lemma define_schema_completes_only_if_accepted_witness :
  exists s,
    schema (handler (fst (define_schema w384))) = Some s /\
    Forall well_formed fields3 /\
    Forall (fun f => FieldSchema_check f = Ok tt) (cs_fields s) /\
    CollectionSchema_check s = Ok tt /\
    field_schemas (new_events w384 (fst (define_schema w384))) = cs_fields s.
Proof.
  apply (define_schema_completes_only_if_accepted w384).
  vm_compute. reflexivity.
Defined.
End MoreScenarioA.

Section MoreScenarioNoIndex.
Import Demo.
#[local] Existing Instance runtime.
#[local] Existing Instance demo_embedder.
#[local] Existing Instance pymilvus_no_index.

(** the collection is in the store, the handler is not attached to it *)
Lemma connect_to_collection_index_failure_witness :
  snd (connect_to_collection w_no_index) =
    Raise (MilvusException "index type not supported") /\
  store (fst (connect_to_collection w_no_index)) = [("sentences", [])] /\
  handler (fst (connect_to_collection w_no_index)) = handler w_no_index.
Proof.
  apply (connect_to_collection_index_failure w_no_index
           [("sentences", [])] [("sentences", [])] "sentences"
           (MilvusException "index type not supported")).
  - vm_compute. reflexivity.
  - vm_compute. reflexivity.
  - vm_compute. reflexivity.
Defined.
End MoreScenarioNoIndex.
